(** * London Rental Finder: the query engine of [findingaflat.py]

    A shallow embedding of the data-preparation block and of the two
    callbacks [update_page] and [update_dashboard] of the Dash
    application, followed by the properties of filtering, statistics
    and pagination.

    Conventions of the embedding.
    - A pandas cell holding a finite float is the rational it denotes
      ([Q]); a NaN cell is [None].  Comparisons of finite floats are
      exact, so [Qle_bool] and [Qeq_bool] are the comparisons of the
      code.  A cell that reads as an infinity has no counterpart.
    - The floating-point operations whose result depends on binary64
      rounding (the mean of a column, its formatting, the rounding of
      a cell) are parameters of the callbacks ([FloatOps]).
    - A DataFrame is the list of its rows, in index order.
    - A Python exception is a constructor of the result type.
    - Of the two figures only the check of the marker sizes, which
      can raise, is kept; the styling and the column headers are
      presentation and are left out. *)

From Stdlib Require Import String Ascii List Bool ZArith QArith Qround Qabs Lia.
From Stdlib Require Import DecimalString Sorted.
Import ListNotations.

Local Open Scope Z_scope.

(* ================================================================== *)
(** * Python values and helpers *)
(* ================================================================== *)

Module Py.

(** Results of code that may raise. *)
Inductive exn : Type :=
| KeyError (key : string)
| ValueError (msg : string).

Inductive result (A : Type) : Type :=
| Ok (a : A)
| Raise (e : exn).
Arguments Ok {A} a.
Arguments Raise {A} e.

Definition bind {A B : Type} (m : result A) (k : A -> result B) : result B :=
  match m with
  | Ok a => k a
  | Raise e => Raise e
  end.

(** Truth value testing: [0] and [0.0] are false, the empty list is
    false, [None] is false. *)
Definition truthy_num (q : Q) : bool := negb (Qeq_bool q 0).

Definition truthy_list {A : Type} (l : list A) : bool :=
  match l with
  | [] => false
  | _ :: _ => true
  end.

Definition truthy_opt {A : Type} (inner : A -> bool) (o : option A) : bool :=
  match o with
  | Some a => inner a
  | None => false
  end.

(** [l[start:stop]], with Python's treatment of negative and
    out-of-range bounds. *)
Definition slice_bound (len i : Z) : Z :=
  if i <? 0 then Z.max 0 (len + i) else Z.min i len.

Definition slice {A : Type} (l : list A) (start stop : Z) : list A :=
  let len := Z.of_nat (length l) in
  let lo := slice_bound len start in
  let hi := slice_bound len stop in
  firstn (Z.to_nat (hi - lo)) (skipn (Z.to_nat lo) l).

(** [str(n)] for a natural number. *)
Definition str_nat (n : nat) : string :=
  NilZero.string_of_uint (Nat.to_uint n).

Definition str_Z (z : Z) : string :=
  NilZero.string_of_int (Z.to_int z).

(** Rounding of a rational to the nearest integer, ties to even:
    the rounding of [format(x, '.nf')] and of [numpy.round]. *)
Definition round_half_even (q : Q) : Z :=
  let f := Qfloor q in
  match Qcompare (q - inject_Z f) (1 # 2) with
  | Lt => f
  | Gt => f + 1
  | Eq => if Z.even f then f else f + 1
  end.

Fixpoint zeros (n : nat) : string :=
  match n with
  | O => EmptyString
  | S k => String "0"%char (zeros k)
  end.

Definition pad_left (width : nat) (s : string) : string :=
  (zeros (width - String.length s) ++ s)%string.

(** [format(q, '.<digits>f')]. *)
Definition format_f (digits : nat) (q : Q) : string :=
  let scale := Z.pow 10 (Z.of_nat digits) in
  let a := Qabs q in
  let n := round_half_even (a * inject_Z scale) in
  let sign := if Qlt_le_dec q 0 then "-"%string else EmptyString in
  let int_part := str_Z (n / scale) in
  let frac := match digits with
              | O => EmptyString
              | S _ => ("." ++ pad_left digits (str_Z (n mod scale)))%string
              end in
  (sign ++ int_part ++ frac)%string.

(** The mean of a column in exact arithmetic.  [Series.mean()] is a
    binary64 sum and division; this is the operation of [exact_ops],
    used for sample runs whose means are exact in binary64 as well. *)
Definition sum (xs : list Q) : Q := fold_right Qplus 0%Q xs.

Definition mean (xs : list Q) : Q :=
  (sum xs / inject_Z (Z.of_nat (length xs)))%Q.

(** The rounding of a rational to three places, ties to even, in
    exact arithmetic; as [mean], an operation of [exact_ops]. *)
Definition round3 (q : Q) : Q :=
  (inject_Z (round_half_even (q * 1000)) / 1000)%Q.

End Py.

Export Py.

Notation "'do' x <- m ;; k" := (Py.bind m (fun x => k))
  (at level 10, x name, m at level 100, k at level 200).

(** The floating-point operations that [update_dashboard] takes from
    pandas and from [format]: [Series.mean()], whose result has the
    type [mean_value], the formats ['.0f'] and ['.1f'] of a mean, and
    [Series.round(3)] on one cell.  The callback is modelled for any
    such operations. *)
Record FloatOps : Type := mkFloatOps {
  mean_value : Type;
  series_mean : list Q -> mean_value;
  format_0f : mean_value -> string;
  format_1f : mean_value -> string;
  series_round3 : Q -> Q
}.

(** The operations in exact arithmetic, for the sample runs. *)
Definition exact_ops : FloatOps :=
  {| mean_value := Q;
     series_mean := mean;
     format_0f := format_f 0;
     format_1f := format_f 1;
     series_round3 := round3 |}.

(* ================================================================== *)
(** * Data model *)
(* ================================================================== *)

(** One row of [df_clean].  The fields are the columns of the frame;
    they live in [Col] so that [Col.bedrooms l] stays readable next to
    the callback parameter [bedrooms]. *)
Module Col.

Record Listing : Type := mkListing {
  price : Q;
  bedrooms : option Q;
  bathrooms : option Q;
  latitude : Q;
  longitude : Q;
  area : option string;
  displayAddress : option string;
  addedOn : option string;
  propertyType : option string;
  url : option string
}.

End Col.

Abbreviation Listing := Col.Listing.

(** The content of the [distance-data] store, as returned by
    [calculate_distances]. *)
Record DistanceData : Type := mkDistanceData {
  lat : Q;
  lon : Q;
  distances : list Q
}.

(** The value of a filter dropdown: ['all'], one of the offered
    numbers, or [None] once the dropdown is cleared. *)
Inductive dropdown : Type :=
| sel_all
| sel_value (n : Z)
| sel_none.

(** The value of the [table-toggle] radio items. *)
Inductive toggle : Type :=
| show_filtered
| show_all.

(** The components that are inputs of [update_page]. *)
Inductive input_id : Type :=
| id_prev_page_btn
| id_next_page_btn
| id_bedrooms_filter
| id_bathrooms_filter
| id_price_slider
| id_distance_data
| id_distance_input
| id_table_toggle.

Definition component_id (i : input_id) : string :=
  match i with
  | id_prev_page_btn => "prev-page-btn"
  | id_next_page_btn => "next-page-btn"
  | id_bedrooms_filter => "bedrooms-filter"
  | id_bathrooms_filter => "bathrooms-filter"
  | id_price_slider => "price-slider"
  | id_distance_data => "distance-data"
  | id_distance_input => "distance-input"
  | id_table_toggle => "table-toggle"
  end.

(** Layout constants of the price slider. *)
Definition price_slider_min : Q := 0.
Definition price_slider_max : Q := 10000.

(* ================================================================== *)
(** * DatasetStore: the data-preparation block *)
(* ================================================================== *)

Module DatasetStore.

(** The frame read by [pd.read_csv]: the header and the records; a
    record maps each column that has a value in it to the text of the
    cell, and a column without a value in the record is NaN there. *)
Definition RawRow : Type := list (string * string).

Record RawTable : Type := mkRawTable {
  columns : list string;
  records : list RawRow
}.

Record Store : Type := mkStore {
  df_clean : list Listing;
  bedrooms_options : list Z;
  bathrooms_options : list Z
}.

Definition cell (col : string) (row : RawRow) : option string :=
  match find (fun kv => String.eqb (fst kv) col) row with
  | Some kv => Some (snd kv)
  | None => None
  end.

Definition has_column (df : RawTable) (col : string) : bool :=
  existsb (String.eqb col) (columns df).

(** [df[col]] raises [KeyError] when the frame has no such column. *)
Definition getitem (df : RawTable) (col : string) : result unit :=
  if has_column df col then Ok tt else Raise (KeyError col).

(** [Series.unique()]: distinct values in order of first appearance. *)
Fixpoint unique (xs : list Q) : list Q :=
  match xs with
  | [] => []
  | x :: rest => x :: filter (fun y => negb (Qeq_bool y x)) (unique rest)
  end.

Fixpoint dropna_values (xs : list (option Q)) : list Q :=
  match xs with
  | [] => []
  | Some x :: rest => x :: dropna_values rest
  | None :: rest => dropna_values rest
  end.

Fixpoint insert_sorted (z : Z) (l : list Z) : list Z :=
  match l with
  | [] => [z]
  | y :: rest => if z <=? y then z :: l else y :: insert_sorted z rest
  end.

Definition sorted (l : list Z) : list Z := fold_right insert_sorted [] l.

(** [sorted([int(x) for x in column.dropna().unique() if x >= 0])]. *)
Definition options_of (column : list (option Q)) : list Z :=
  sorted (map Qfloor
              (filter (fun x => Qle_bool 0 x) (unique (dropna_values column)))).

Section Coercion.

(** [pd.to_numeric(..., errors='coerce')] on the text of one cell:
    the number it reads, or [None] (NaN) when it reads none. *)
Variable parse_number : string -> option Q.

Definition to_numeric (c : option string) : option Q :=
  match c with
  | Some text => parse_number text
  | None => None
  end.

(** One record through coercion and
    [dropna(subset=['price', 'latitude', 'longitude'])]. *)
Definition clean_row (df : RawTable) (row : RawRow) : option Listing :=
  match to_numeric (cell "price" row),
        to_numeric (cell "coordinates/latitude" row),
        to_numeric (cell "coordinates/longitude" row) with
  | Some p, Some la, Some lo =>
      Some {| Col.price := p;
              Col.bedrooms := to_numeric (cell "bedrooms" row);
              Col.bathrooms := to_numeric (cell "bathrooms" row);
              Col.latitude := la;
              Col.longitude := lo;
              Col.area :=
                if has_column df "displayAddress"
                then match cell "displayAddress" row with
                     | Some a => Some a
                     | None => Some "Unknown"%string
                     end
                else cell "area" row;
              Col.displayAddress := cell "displayAddress" row;
              Col.addedOn := cell "addedOn" row;
              Col.propertyType := cell "propertyType" row;
              Col.url := cell "url" row |}
  | _, _, _ => None
  end.

Fixpoint clean_rows (df : RawTable) (rows : list RawRow) : list Listing :=
  match rows with
  | [] => []
  | row :: rest =>
      match clean_row df row with
      | Some l => l :: clean_rows df rest
      | None => clean_rows df rest
      end
  end.

(** The module-level block from [pd.to_numeric] to the [area] column,
    on finite cells.  (On a kept record whose bedrooms or bathrooms
    read as an infinity, [int(x)] raises [OverflowError]; such cells
    are outside the model.) *)
Definition prepare_data (df : RawTable) : result Store :=
  do _ <- getitem df "price" ;;
  do _ <- getitem df "bedrooms" ;;
  do _ <- getitem df "bathrooms" ;;
  do _ <- getitem df "coordinates/latitude" ;;
  do _ <- getitem df "coordinates/longitude" ;;
  let cleaned := clean_rows df (records df) in
  Ok {| df_clean := cleaned;
        bedrooms_options := options_of (map Col.bedrooms cleaned);
        bathrooms_options := options_of (map Col.bathrooms cleaned) |}.

End Coercion.

End DatasetStore.

(* ================================================================== *)
(** * Paginator: the [update_page] callback *)
(* ================================================================== *)

Module Paginator.

(** [triggered] is [ctx.triggered], the changed inputs, first one
    first; [current_page] is the content of the [current-page] store. *)
Definition update_page (triggered : list input_id) (current_page : Z) : Z :=
  match triggered with
  | [] => 1
  | first :: _ =>
      let trigger_id := component_id first in
      if negb (existsb (String.eqb trigger_id)
                       ["prev-page-btn"; "next-page-btn"]%string)
      then 1
      else if String.eqb trigger_id "prev-page-btn" then Z.max 1 (current_page - 1)
      else if String.eqb trigger_id "next-page-btn" then current_page + 1
      else current_page
  end.

End Paginator.

(* ================================================================== *)
(** * The [update_dashboard] callback *)
(* ================================================================== *)

(** What the callback returns.  The two counts are returned as their
    [str]; the page numbers are returned inside [page_info_text] and
    through the two [disabled] flags; the rows are the records handed
    to the table. *)
Module View.

Record TableRow : Type := mkTableRow {
  listing : Listing;
  distance_km : option Q
}.

Record ViewModel : Type := mkViewModel {
  total_count : nat;
  filtered_count : nat;
  avg_price : string;
  avg_dist : string;
  narrative : string;
  table_data : list TableRow;
  current_page : Z;
  total_pages : Z;
  start_idx : Z;
  end_idx : Z;
  total_items : Z;
  page_info_text : string;
  prev_disabled : bool;
  next_disabled : bool
}.

Definition has_prev (v : ViewModel) : bool := negb (prev_disabled v).
Definition has_next (v : ViewModel) : bool := negb (next_disabled v).

End View.

Module Dashboard.

(** A row of [filtered_df]: a listing with its [distance_km] cell. *)
Record Row : Type := mkRow {
  listing : Listing;
  distance_km : Q
}.

(** [frame['distance_km'] = values]: pandas raises [ValueError] when
    the lengths differ. *)
Fixpoint set_column (df : list Listing) (values : list Q) : result (list Row) :=
  match df, values with
  | [], [] => Ok []
  | l :: df', d :: values' =>
      do rows <- set_column df' values' ;;
      Ok (mkRow l d :: rows)
  | _, _ => Raise (ValueError "Length of values does not match length of index")
  end.

(** [distance_data and distance_data.get('distances')]. *)
Definition has_distances (distance_data : option DistanceData) : bool :=
  truthy_opt (fun dd => truthy_list (distances dd)) distance_data.

(** "Add distance column". *)
Definition add_distance_column (df_clean : list Listing)
    (distance_data : option DistanceData) : result (list Row) :=
  match distance_data with
  | Some dd =>
      if truthy_list (distances dd)
      then set_column df_clean (distances dd)
      else Ok (map (fun l => mkRow l 0) df_clean)
  | None => Ok (map (fun l => mkRow l 0) df_clean)
  end.

(** [column == value] for the value of a dropdown; a NaN cell equals
    nothing and nothing equals [None]. *)
Definition eq_selected (c : option Q) (selected : dropdown) : bool :=
  match c, selected with
  | Some q, sel_value n => Qeq_bool q (inject_Z n)
  | _, _ => false
  end.

Definition is_all (selected : dropdown) : bool :=
  match selected with
  | sel_all => true
  | _ => false
  end.

(** "Apply filters": the four steps, in the order of the code. *)
Definition apply_filters (filtered_df : list Row)
    (bedrooms bathrooms : dropdown) (price_range : Q * Q)
    (distance_data : option DistanceData) (max_distance : option Q) : list Row :=
  let filtered_df :=
    if negb (is_all bedrooms)
    then filter (fun r => eq_selected (Col.bedrooms (listing r)) bedrooms) filtered_df
    else filtered_df in
  let filtered_df :=
    if negb (is_all bathrooms)
    then filter (fun r => eq_selected (Col.bathrooms (listing r)) bathrooms) filtered_df
    else filtered_df in
  let filtered_df :=
    filter (fun r => Qle_bool (fst price_range) (Col.price (listing r))
                     && Qle_bool (Col.price (listing r)) (snd price_range))
           filtered_df in
  let filtered_df :=
    match distance_data, max_distance with
    | Some _, Some m =>
        if truthy_num m
        then filter (fun r => Qle_bool (distance_km r) m) filtered_df
        else filtered_df
    | _, _ => filtered_df
    end in
  filtered_df.

(** The frame after "Add distance column" and "Apply filters". *)
Definition filtered_view (df_clean : list Listing)
    (bedrooms bathrooms : dropdown) (price_range : Q * Q)
    (distance_data : option DistanceData) (max_distance : option Q)
    : result (list Row) :=
  do decorated <- add_distance_column df_clean distance_data ;;
  Ok (apply_filters decorated bedrooms bathrooms price_range
                    distance_data max_distance).

(** "Main map": the markers of the map are built when the filtered
    frame has rows, with the size [bedrooms * 3 + 5]; the figure
    library accepts a size that is a number and not negative, and
    raises [ValueError] for any other. *)
Definition marker_size (r : Row) : option Q :=
  option_map (fun b => (b * 3 + 5)%Q) (Col.bedrooms (listing r)).

Definition marker_size_valid (r : Row) : bool :=
  match marker_size r with
  | Some size => Qle_bool 0 size
  | None => false
  end.

Definition main_map (filtered_df : list Row) : result unit :=
  if (0 <? length filtered_df)%nat
  then
    if forallb marker_size_valid filtered_df
    then Ok tt
    else Raise (ValueError "Invalid element(s) received for the 'size' property of scattermap.marker")
  else Ok tt.

(** "Narrative". *)
Definition narrative_of (filtered_count total_count : nat)
    (avg_price avg_dist : string) (distance_data : option DistanceData) : string :=
  let narrative :=
    ("🔍 Found " ++ str_nat filtered_count
       ++ " properties matching your criteria out of "
       ++ str_nat total_count ++ " total listings. ")%string in
  if (0 <? filtered_count)%nat
  then
    let narrative :=
      (narrative ++ "The average monthly rent is " ++ avg_price ++ ". ")%string in
    let narrative :=
      if truthy_opt (fun _ => true) distance_data
      then (narrative ++ "Properties are on average " ++ avg_dist
              ++ " from your selected location. ")%string
      else narrative in
    (narrative ++ "Explore the map and charts below to find your perfect flat! 🏡")%string
  else (narrative ++ "Try adjusting your filters to see more results. 🔧")%string.

Definition as_table_row (r : Row) : View.TableRow :=
  View.mkTableRow (listing r) (Some (distance_km r)).

Definition items_per_page : Z := 10.

Section Floats.

Variable ops : FloatOps.

(** "Summary stats". *)
Definition stat_avg_price (filtered_df : list Row) : string :=
  if (0 <? length filtered_df)%nat
  then ("£" ++ format_0f ops
                 (series_mean ops (map (fun r => Col.price (listing r)) filtered_df)))%string
  else "N/A"%string.

Definition stat_avg_dist (filtered_df : list Row)
    (distance_data : option DistanceData) : string :=
  if (0 <? length filtered_df)%nat && truthy_opt (fun _ => true) distance_data
  then (format_1f ops (series_mean ops (map distance_km filtered_df)) ++ " km")%string
  else "N/A"%string.

(** "Table": the frame that is paged, with its distances rounded. *)
Definition round_row (t : View.TableRow) : View.TableRow :=
  View.mkTableRow (View.listing t)
                  (option_map (series_round3 ops) (View.distance_km t)).

Definition table_view (df_clean : list Listing) (filtered_df : list Row)
    (distance_data : option DistanceData) (table_toggle : toggle)
    : result (list View.TableRow) :=
  let table_df :=
    match table_toggle with
    | show_filtered => map as_table_row filtered_df
    | show_all => map (fun l => View.mkTableRow l None) df_clean
    end in
  do table_df <-
    match distance_data, table_toggle with
    | Some dd, show_all =>
        if truthy_list (distances dd)
        then do rows <- set_column df_clean (distances dd) ;;
             Ok (map as_table_row rows)
        else Ok table_df
    | _, _ => Ok table_df
    end ;;
  Ok (map round_row table_df).

Definition update_dashboard (df_clean : list Listing)
    (bedrooms bathrooms : dropdown) (price_range : Q * Q)
    (distance_data : option DistanceData) (max_distance : option Q)
    (table_toggle : toggle) (current_page : Z) : result View.ViewModel :=
  do filtered_df <- filtered_view df_clean bedrooms bathrooms price_range
                                  distance_data max_distance ;;
  let total_count := length df_clean in
  let filtered_count := length filtered_df in
  let avg_price := stat_avg_price filtered_df in
  let avg_dist := stat_avg_dist filtered_df distance_data in
  let narrative :=
    narrative_of filtered_count total_count avg_price avg_dist distance_data in
  do _ <- main_map filtered_df ;;
  do table_df <- table_view df_clean filtered_df distance_data table_toggle ;;
  let total_items := Z.of_nat (length table_df) in
  let total_pages :=
    Z.max 1 ((total_items + items_per_page - 1) / items_per_page) in
  let current_page := Z.max 1 (Z.min current_page total_pages) in
  let start_idx := (current_page - 1) * items_per_page in
  let end_idx := Z.min (start_idx + items_per_page) total_items in
  let page_df := slice table_df start_idx end_idx in
  let page_info_text :=
    ("Page " ++ str_Z current_page ++ " of " ++ str_Z total_pages
       ++ " (Showing " ++ str_Z (start_idx + 1) ++ "-" ++ str_Z end_idx
       ++ " of " ++ str_Z total_items ++ " properties)")%string in
  let prev_disabled := current_page <=? 1 in
  let next_disabled := current_page >=? total_pages in
  Ok {| View.total_count := total_count;
        View.filtered_count := filtered_count;
        View.avg_price := avg_price;
        View.avg_dist := avg_dist;
        View.narrative := narrative;
        View.table_data := page_df;
        View.current_page := current_page;
        View.total_pages := total_pages;
        View.start_idx := start_idx;
        View.end_idx := end_idx;
        View.total_items := total_items;
        View.page_info_text := page_info_text;
        View.prev_disabled := prev_disabled;
        View.next_disabled := next_disabled |}.

End Floats.

End Dashboard.

(* ================================================================== *)
(** * The [calculate_distances] callback *)
(* ================================================================== *)

Module Distances.

Section Haversine.

(** [haversine(lat1, lon1, lat2, lon2)] is floating-point
    trigonometry; the callback is modelled for any such function. *)
Variable haversine : Q -> Q -> Q -> Q -> Q.

(** [lat] and [lon] are the values of the two coordinate inputs, [None]
    when a field is empty.  [df_clean.apply(..., axis=1)] is the column
    of the results row by row; on a frame without rows pandas does not
    produce such a column, and the properties below are stated for a
    dataset with at least one row. *)
Definition calculate_distances (df_clean : list Listing)
    (n_clicks : option Z) (lat lon : option Q) : option DistanceData :=
  match lat, lon with
  | Some la, Some lo =>
      Some {| lat := la;
              lon := lo;
              distances :=
                map (fun row => haversine la lo (Col.latitude row) (Col.longitude row))
                    df_clean |}
  | _, _ => None
  end.

End Haversine.

End Distances.

(* ================================================================== *)
(** * The [current-page] store over a session *)
(* ================================================================== *)

Module Session.

(** The store starts at [data=1]; every event runs [update_page] on
    the stored page and stores what it returns. *)
Definition initial_page : Z := 1.

Fixpoint run (events : list (list input_id)) (current_page : Z) : Z :=
  match events with
  | [] => current_page
  | triggered :: later => run later (Paginator.update_page triggered current_page)
  end.

End Session.

(* ================================================================== *)
(** * The table of [update_dashboard]: columns and links *)
(* ================================================================== *)

Module Table.

(** [list.insert(i, x)] for an index inside the list. *)
Definition insert_at {A : Type} (i : nat) (x : A) (l : list A) : list A :=
  firstn i l ++ x :: skipn i l.

(** "Select columns for display" and "Keep only columns that exist",
    from the column names of [table_df]. *)
Definition table_columns (frame_columns : list string) : list string :=
  let present col := existsb (String.eqb col) frame_columns in
  let table_columns := ["price"; "bedrooms"; "bathrooms"; "distance_km"]%string in
  let table_columns :=
    if present "area"%string then insert_at 3 "area"%string table_columns
    else table_columns in
  let table_columns :=
    if present "displayAddress"%string
    then table_columns ++ ["displayAddress"%string] else table_columns in
  let table_columns :=
    if present "addedOn"%string
    then table_columns ++ ["addedOn"%string] else table_columns in
  let table_columns :=
    if present "propertyType"%string
    then table_columns ++ ["propertyType"%string] else table_columns in
  let table_columns :=
    if present "url"%string
    then table_columns ++ ["url"%string] else table_columns in
  filter present table_columns.

Definition truthy_str (s : string) : bool :=
  match s with
  | EmptyString => false
  | String _ _ => true
  end.

Section Links.

(** [str.strip()], taken as it is. *)
Variable strip : string -> string.

(** "Convert URLs to markdown links": the new content of the [url]
    cell of one record; [None] is a NaN cell. *)
Definition render_url (url : option string) : string :=
  match url with
  | Some raw =>
      if truthy_str raw
      then
        let url_str := strip raw in
        if truthy_str url_str
           && (String.prefix "http://" url_str || String.prefix "https://" url_str)
        then ("[🏠 View Listing](" ++ url_str ++ ")")%string
        else "❌ Invalid"%string
      else "—"%string
  | None => "—"%string
  end.

End Links.

End Table.

(* ================================================================== *)
(** * The engine in the words of its description *)
(* ================================================================== *)

(** The definitions of this part follow the description of the engine
    (FilterEngine, Aggregator, Paginator), not the code; the theorems
    below compare them with the callbacks. *)
Module Engine.

Import Dashboard.

(** The [distance-data] store holds what [calculate_distances] made of
    [df_clean]: nothing, or one distance for each row. *)
Definition distances_fit (df_clean : list Listing)
    (distance_data : option DistanceData) : bool :=
  match distance_data with
  | Some dd => (length (distances dd) =? length df_clean)%nat
  | None => true
  end.

(** A max distance that is absent or different from zero. *)
Definition nonzero_or_unset (max_distance : option Q) : bool :=
  match max_distance with
  | Some m => negb (Qeq_bool m 0)
  | None => true
  end.

(** The dataset with its distance column: the applied distances, or
    zero where no distance was applied. *)
Fixpoint zip_rows (df : list Listing) (values : list Q) : list Row :=
  match df, values with
  | l :: df', d :: values' => mkRow l d :: zip_rows df' values'
  | _, _ => []
  end.

Definition decorate (df_clean : list Listing)
    (distance_data : option DistanceData) : list Row :=
  match distance_data with
  | Some dd =>
      match distances dd with
      | [] => map (fun l => mkRow l 0) df_clean
      | _ :: _ => zip_rows df_clean (distances dd)
      end
  | None => map (fun l => mkRow l 0) df_clean
  end.

(** The four predicates of the filter. *)
Definition passes_rooms (c : option Q) (criterion : dropdown) : bool :=
  match criterion with
  | sel_all => true
  | sel_value n =>
      match c with
      | Some q => Qeq_bool q (inject_Z n)
      | None => false
      end
  | sel_none => false
  end.

Definition passes_price (price_range : Q * Q) (p : Q) : bool :=
  Qle_bool (fst price_range) p && Qle_bool p (snd price_range).

Definition passes_distance (distance_data : option DistanceData)
    (max_distance : option Q) (d : Q) : bool :=
  match distance_data, max_distance with
  | Some _, Some m => Qle_bool d m
  | _, _ => true
  end.

Definition passes (bedrooms bathrooms : dropdown) (price_range : Q * Q)
    (distance_data : option DistanceData) (max_distance : option Q)
    (r : Row) : bool :=
  passes_rooms (Col.bedrooms (listing r)) bedrooms
  && passes_rooms (Col.bathrooms (listing r)) bathrooms
  && passes_price price_range (Col.price (listing r))
  && passes_distance distance_data max_distance (distance_km r).

(** Every price of the dataset lies in the price range. *)
Definition prices_within (price_range : Q * Q) (df_clean : list Listing) : bool :=
  forallb (fun l => passes_price price_range (Col.price l)) df_clean.

(** The frame the table pages over, by display mode. *)
Definition paged_frame (ops : FloatOps)
    (df_clean : list Listing) (filtered_df : list Row)
    (distance_data : option DistanceData) (table_toggle : toggle)
    : list View.TableRow :=
  map (round_row ops)
      match table_toggle with
      | show_filtered => map as_table_row filtered_df
      | show_all =>
          if has_distances distance_data
          then map as_table_row (decorate df_clean distance_data)
          else map (fun l => View.mkTableRow l None) df_clean
      end.

(** [max(1, ceil(n / 10))] and the clamp of a page into its range. *)
Definition pages_of (n : Z) : Z :=
  Z.max 1 (Qceiling (inject_Z n / 10)).

Definition clamp (page pages : Z) : Z :=
  if page <? 1 then 1 else if pages <? page then pages else page.

(** The inputs whose change is a change of the filter criteria or a
    newly applied distance query. *)
Definition is_criterion_or_query (i : input_id) : bool :=
  match i with
  | id_bedrooms_filter | id_bathrooms_filter | id_price_slider
  | id_distance_input | id_distance_data => true
  | _ => false
  end.

Definition is_navigation (i : input_id) : bool :=
  match i with
  | id_prev_page_btn | id_next_page_btn => true
  | _ => false
  end.

(** A record that the cleaning drops: its price, latitude or longitude
    is missing or is not a number. *)
Definition fails_cleaning (parse_number : string -> option Q)
    (row : DatasetStore.RawRow) : bool :=
  let missing col :=
    match DatasetStore.to_numeric parse_number (DatasetStore.cell col row) with
    | Some _ => false
    | None => true
    end in
  missing "price"%string || missing "coordinates/latitude"%string
  || missing "coordinates/longitude"%string.

Definition has_required_columns (df : DatasetStore.RawTable) : bool :=
  forallb (DatasetStore.has_column df)
          ["price"; "bedrooms"; "bathrooms";
           "coordinates/latitude"; "coordinates/longitude"]%string.

Definition empty_store : DatasetStore.Store :=
  {| DatasetStore.df_clean := [];
     DatasetStore.bedrooms_options := [];
     DatasetStore.bathrooms_options := [] |}.

End Engine.

(* ================================================================== *)
(** * Sample data *)
(* ================================================================== *)

Module Samples.

(** A reader of unsigned decimal integers, standing for
    [pd.to_numeric] on the sample files below. *)
Definition parse_digits (text : string) : option Q :=
  match text with
  | EmptyString => None
  | _ => option_map (fun u => inject_Z (Z.of_uint u)) (NilEmpty.uint_of_string text)
  end.

Definition required_columns : list string :=
  ["price"; "bedrooms"; "bathrooms";
   "coordinates/latitude"; "coordinates/longitude"]%string.

(** A file whose three records all fail the cleaning: a price that is
    not a number, a missing longitude, an empty record. *)
Definition unusable_file : DatasetStore.RawTable :=
  {| DatasetStore.columns := app required_columns ["displayAddress"%string];
     DatasetStore.records :=
       [ [("price", "on request"); ("coordinates/latitude", "51");
          ("coordinates/longitude", "0")];
         [("price", "3000"); ("bedrooms", "2"); ("coordinates/latitude", "51")];
         [] ]%string |}.

(** A flat near the default origin of the layout. *)
Definition flat (p : Q) (beds : Z) : Listing :=
  {| Col.price := p;
     Col.bedrooms := Some (inject_Z beds);
     Col.bathrooms := Some 1%Q;
     Col.latitude := 515188 # 10000;
     Col.longitude := - (814 # 10000);
     Col.area := Some "Unknown"%string;
     Col.displayAddress := None;
     Col.addedOn := None;
     Col.propertyType := None;
     Col.url := None |}.

(** A distance store applied at the default origin (51.5074, -0.1278). *)
Definition applied (ds : list Q) : DistanceData :=
  {| lat := 515074 # 10000; lon := - (1278 # 10000); distances := ds |}.

Definition one_flat : list Listing := [flat 3000 2].
Definition two_flats : list Listing := [flat 3000 2; flat 5000 2].
Definition eleven_flats : list Listing := repeat (flat 3000 2) 11.
Definition twenty_five_flats : list Listing := repeat (flat 3000 2) 25.
Definition penthouse : list Listing := [flat 12000 3].

End Samples.

(* ================================================================== *)
(** * Derived notions and further sample data *)
(* ================================================================== *)

Module Derived.

Import Dashboard.

(** The one row test that the four steps of [apply_filters] amount
    to, for every value of the criteria. *)
Definition keeps (bedrooms bathrooms : dropdown) (price_range : Q * Q)
    (distance_data : option DistanceData) (max_distance : option Q)
    (r : Row) : bool :=
  (is_all bedrooms || eq_selected (Col.bedrooms (listing r)) bedrooms)
  && (is_all bathrooms || eq_selected (Col.bathrooms (listing r)) bathrooms)
  && (Qle_bool (fst price_range) (Col.price (listing r))
      && Qle_bool (Col.price (listing r)) (snd price_range))
  && match distance_data, max_distance with
     | Some _, Some m => negb (truthy_num m) || Qle_bool (distance_km r) m
     | _, _ => true
     end.

(** The distance store with which [update_dashboard] does not raise:
    none, one without distances, or one distance per row. *)
Definition store_usable (df_clean : list Listing)
    (distance_data : option DistanceData) : bool :=
  match distance_data with
  | Some dd =>
      match distances dd with
      | [] => true
      | _ :: _ => (length (distances dd) =? length df_clean)%nat
      end
  | None => true
  end.

(** The columns of the table in the order the code builds them. *)
Definition display_order : list string :=
  ["price"; "bedrooms"; "bathrooms"; "area"; "distance_km";
   "displayAddress"; "addedOn"; "propertyType"; "url"]%string.

Definition starts_with_http (s : string) : bool :=
  String.prefix "http://" s || String.prefix "https://" s.

(** A cell that holds a whole number. *)
Definition integral (q : Q) : Prop := Qeq q (inject_Z (Qfloor q)).

End Derived.

Module MoreSamples.

(** [str.strip()] on ASCII text. *)
Definition is_space (c : ascii) : bool :=
  let n := nat_of_ascii c in
  (Nat.eqb n 32 || (Nat.leb 9 n && Nat.leb n 13))%bool.

Fixpoint lstrip (s : string) : string :=
  match s with
  | EmptyString => EmptyString
  | String c rest => if is_space c then lstrip rest else s
  end.

Definition reverse (s : string) : string :=
  string_of_list_ascii (rev (list_ascii_of_string s)).

Definition strip (s : string) : string := reverse (lstrip (reverse (lstrip s))).

(** A stand-in for the distance function: the sum of the coordinate
    differences, scaled. *)
Definition taxicab (lat1 lon1 lat2 lon2 : Q) : Q :=
  (111 * (Qabs (lat2 - lat1) + Qabs (lon2 - lon1)))%Q.

(** A file without the [bathrooms] column. *)
Definition file_without_bathrooms : DatasetStore.RawTable :=
  {| DatasetStore.columns :=
       ["price"; "bedrooms"; "coordinates/latitude"; "coordinates/longitude"]%string;
     DatasetStore.records :=
       [ [("price", "3000"); ("bedrooms", "2"); ("coordinates/latitude", "51");
          ("coordinates/longitude", "0")] ]%string |}.

(** A file with three records: a complete one, one whose bedrooms are
    not a number, one without a price. *)
Definition small_file : DatasetStore.RawTable :=
  {| DatasetStore.columns :=
       app Samples.required_columns ["displayAddress"; "url"]%string;
     DatasetStore.records :=
       [ [("price", "3000"); ("bedrooms", "2"); ("bathrooms", "1");
          ("coordinates/latitude", "51"); ("coordinates/longitude", "0");
          ("displayAddress", "Moorgate"); ("url", "https://example.org/1")];
         [("price", "2500"); ("bedrooms", "studio"); ("bathrooms", "1");
          ("coordinates/latitude", "51"); ("coordinates/longitude", "0")];
         [("bedrooms", "3"); ("coordinates/latitude", "51");
          ("coordinates/longitude", "0")] ]%string |}.

(** A flat whose bedrooms cell is missing. *)
Definition flat_without_bedrooms : Listing :=
  {| Col.price := 2500;
     Col.bedrooms := None;
     Col.bathrooms := Some 1%Q;
     Col.latitude := 515188 # 10000;
     Col.longitude := - (814 # 10000);
     Col.area := Some "Unknown"%string;
     Col.displayAddress := None;
     Col.addedOn := None;
     Col.propertyType := None;
     Col.url := None |}.

End MoreSamples.


(* ================================================================== *)
(** * Properties *)
(* ================================================================== *)

Import Dashboard Engine Paginator Derived.

(** ** Lists and filters *)

Lemma filter_twice {A : Type} (p q : A -> bool) (l : list A) :
  filter q (filter p l) = filter (fun x => p x && q x) l.
Proof.
  induction l as [|x l IH]; simpl; [reflexivity|].
  destruct (p x); simpl; [destruct (q x)|]; now rewrite IH.
Qed.

Lemma filter_all_true {A : Type} (p : A -> bool) (l : list A) :
  forallb p l = true -> filter p l = l.
Proof.
  induction l as [|x l IH]; simpl; [reflexivity|].
  intros H. apply andb_true_iff in H as [Hx Hl].
  rewrite Hx. now rewrite IH.
Qed.

Lemma filter_length_le {A : Type} (p : A -> bool) (l : list A) :
  (length (filter p l) <= length l)%nat.
Proof.
  induction l as [|x l IH]; simpl; [lia|].
  destruct (p x); simpl; lia.
Qed.

(** ** The distance column *)

Lemma set_column_zip (df : list Listing) :
  forall values, length values = length df ->
  set_column df values = Ok (zip_rows df values).
Proof.
  induction df as [|l df IH]; intros [|d values] Hlen; simpl in *;
    try discriminate; [reflexivity|].
  rewrite IH by lia. reflexivity.
Qed.

Lemma zip_rows_listing (df : list Listing) :
  forall values, length values = length df ->
  map listing (zip_rows df values) = df.
Proof.
  induction df as [|l df IH]; intros [|d values] Hlen; simpl in *;
    try discriminate; [reflexivity|].
  now rewrite IH by lia.
Qed.

Lemma zip_rows_distance (df : list Listing) :
  forall values, length values = length df ->
  map distance_km (zip_rows df values) = values.
Proof.
  induction df as [|l df IH]; intros [|d values] Hlen; simpl in *;
    try discriminate; [reflexivity|].
  now rewrite IH by lia.
Qed.

Lemma add_distance_column_decorate df distance_data :
  distances_fit df distance_data = true ->
  add_distance_column df distance_data = Ok (decorate df distance_data).
Proof.
  unfold distances_fit, add_distance_column, decorate.
  destruct distance_data as [dd|]; [|reflexivity].
  intros Hfit. apply Nat.eqb_eq in Hfit.
  destruct (distances dd) as [|d ds] eqn:E; simpl; [reflexivity|].
  apply set_column_zip. exact Hfit.
Qed.

Lemma decorate_listing df distance_data :
  distances_fit df distance_data = true ->
  map listing (decorate df distance_data) = df.
Proof.
  unfold distances_fit, decorate.
  destruct distance_data as [dd|].
  - intros Hfit. apply Nat.eqb_eq in Hfit.
    destruct (distances dd) as [|d ds] eqn:E.
    + rewrite map_map. simpl. apply map_id.
    + apply zip_rows_listing. exact Hfit.
  - intros _. rewrite map_map. simpl. apply map_id.
Qed.

Lemma decorate_length df distance_data :
  distances_fit df distance_data = true ->
  length (decorate df distance_data) = length df.
Proof.
  intros Hfit. rewrite <- (decorate_listing df distance_data Hfit) at 2.
  now rewrite length_map.
Qed.

Lemma decorate_distance df dd :
  distances_fit df (Some dd) = true ->
  map distance_km (decorate df (Some dd)) = distances dd.
Proof.
  unfold distances_fit, decorate. intros Hfit. apply Nat.eqb_eq in Hfit.
  destruct (distances dd) as [|d ds] eqn:E.
  - simpl in Hfit. destruct df; [reflexivity|discriminate].
  - apply zip_rows_distance. exact Hfit.
Qed.

Lemma filtered_view_ok df bedrooms bathrooms price_range distance_data max_distance :
  distances_fit df distance_data = true ->
  filtered_view df bedrooms bathrooms price_range distance_data max_distance
  = Ok (apply_filters (decorate df distance_data) bedrooms bathrooms
                      price_range distance_data max_distance).
Proof.
  intros Hfit. unfold filtered_view.
  rewrite add_distance_column_decorate by exact Hfit. reflexivity.
Qed.

(** ** The filter chain as one predicate *)

Lemma apply_filters_passes rows bedrooms bathrooms price_range distance_data max_distance :
  nonzero_or_unset max_distance = true ->
  apply_filters rows bedrooms bathrooms price_range distance_data max_distance
  = filter (passes bedrooms bathrooms price_range distance_data max_distance) rows.
Proof.
  intros Hnz. unfold apply_filters.
  assert (Hrooms : forall (col : Row -> option Q) sel l,
             (if negb (is_all sel)
              then filter (fun r => eq_selected (col r) sel) l else l)
             = filter (fun r => passes_rooms (col r) sel) l).
  { intros col sel l. destruct sel; simpl.
    - symmetry. apply filter_all_true. apply forallb_forall. reflexivity.
    - apply filter_ext. intros r. destruct (col r); reflexivity.
    - apply filter_ext. intros r. destruct (col r); reflexivity. }
  rewrite (Hrooms (fun r => Col.bedrooms (listing r))).
  rewrite (Hrooms (fun r => Col.bathrooms (listing r))).
  assert (Hdist : forall l,
             match distance_data, max_distance with
             | Some _, Some m =>
                 if truthy_num m
                 then filter (fun r => Qle_bool (distance_km r) m) l else l
             | _, _ => l
             end
             = filter (fun r => passes_distance distance_data max_distance
                                                (distance_km r)) l).
  { intros l. unfold passes_distance.
    destruct distance_data as [dd|], max_distance as [m|]; simpl in *;
      try (symmetry; apply filter_all_true; apply forallb_forall; reflexivity).
    unfold truthy_num. rewrite Hnz. reflexivity. }
  rewrite Hdist. rewrite !filter_twice.
  apply filter_ext. intros r. unfold passes, passes_price.
  now rewrite !andb_assoc.
Qed.

Lemma zero_max_distance_skips_the_distance_step
      rows bedrooms bathrooms price_range distance_data m :
  Qeq_bool m 0 = true ->
  apply_filters rows bedrooms bathrooms price_range distance_data (Some m)
  = apply_filters rows bedrooms bathrooms price_range distance_data None.
Proof.
  intros Hz. unfold apply_filters, truthy_num. rewrite Hz. simpl.
  destruct distance_data; reflexivity.
Qed.

(** ** The paged frame *)

Lemma usable_cases df distance_data :
  store_usable df distance_data = true ->
  distances_fit df distance_data = true
  \/ exists dd, distance_data = Some dd /\ distances dd = [].
Proof.
  unfold store_usable, distances_fit.
  destruct distance_data as [dd|]; [|now left].
  destruct (distances dd) as [|d ds] eqn:E; intros H.
  - right. exists dd. split; [reflexivity | exact E].
  - left. exact H.
Qed.

Lemma fit_usable df distance_data :
  distances_fit df distance_data = true -> store_usable df distance_data = true.
Proof.
  unfold store_usable, distances_fit.
  destruct distance_data as [dd|]; [|reflexivity].
  destruct (distances dd); [reflexivity | exact (fun H => H)].
Qed.

Lemma filtered_view_usable df bedrooms bathrooms price_range distance_data max_distance :
  store_usable df distance_data = true ->
  filtered_view df bedrooms bathrooms price_range distance_data max_distance
  = Ok (apply_filters (decorate df distance_data) bedrooms bathrooms
                      price_range distance_data max_distance).
Proof.
  intros Hu. destruct (usable_cases _ _ Hu) as [Hfit | (dd & -> & E)].
  - now apply filtered_view_ok.
  - unfold filtered_view, add_distance_column, decorate. rewrite E. reflexivity.
Qed.

Lemma decorate_length_usable df distance_data :
  store_usable df distance_data = true ->
  length (decorate df distance_data) = length df.
Proof.
  intros Hu. destruct (usable_cases _ _ Hu) as [Hfit | (dd & -> & E)].
  - now apply decorate_length.
  - unfold decorate. rewrite E. apply length_map.
Qed.

Lemma decorate_listing_usable df distance_data :
  store_usable df distance_data = true ->
  map listing (decorate df distance_data) = df.
Proof.
  intros Hu. destruct (usable_cases _ _ Hu) as [Hfit | (dd & -> & E)].
  - now apply decorate_listing.
  - unfold decorate. rewrite E, map_map. simpl. apply map_id.
Qed.

Lemma table_view_usable ops df filtered_df distance_data table_toggle :
  store_usable df distance_data = true ->
  table_view ops df filtered_df distance_data table_toggle
  = Ok (paged_frame ops df filtered_df distance_data table_toggle).
Proof.
  intros Hu. destruct (usable_cases _ _ Hu) as [Hfit | (dd & -> & E)].
  - unfold table_view, paged_frame, has_distances.
    destruct distance_data as [dd|], table_toggle; simpl; try reflexivity.
    unfold distances_fit in Hfit. apply Nat.eqb_eq in Hfit.
    unfold decorate.
    destruct (distances dd) as [|d ds] eqn:E; simpl; [reflexivity|].
    rewrite set_column_zip by exact Hfit. reflexivity.
  - unfold table_view, paged_frame, has_distances, truthy_opt. rewrite E.
    destruct table_toggle; reflexivity.
Qed.

Lemma paged_frame_filtered_length ops df filtered_df distance_data :
  length (paged_frame ops df filtered_df distance_data show_filtered)
  = length filtered_df.
Proof. unfold paged_frame. now rewrite !length_map. Qed.

Lemma paged_frame_all_length ops df filtered_df distance_data :
  store_usable df distance_data = true ->
  length (paged_frame ops df filtered_df distance_data show_all) = length df.
Proof.
  intros Hu. unfold paged_frame.
  destruct (has_distances distance_data); rewrite !length_map;
    [apply decorate_length_usable; exact Hu | reflexivity].
Qed.

(** ** Page arithmetic *)

Lemma ceil_div_10 (n : Z) :
  (n + items_per_page - 1) / items_per_page = Qceiling (inject_Z n / 10).
Proof.
  unfold items_per_page, Qceiling, Qfloor, Qdiv, Qmult, Qinv, Qopp, inject_Z.
  simpl. rewrite Z.mul_1_r.
  Z.div_mod_to_equations. lia.
Qed.

Lemma total_pages_pages_of (n : Z) :
  Z.max 1 ((n + items_per_page - 1) / items_per_page) = pages_of n.
Proof. unfold pages_of. now rewrite ceil_div_10. Qed.

Lemma max_min_clamp (page pages : Z) :
  1 <= pages -> Z.max 1 (Z.min page pages) = clamp page pages.
Proof.
  intros Hp. unfold clamp.
  destruct (page <? 1) eqn:E1; [apply Z.ltb_lt in E1; lia|].
  apply Z.ltb_ge in E1.
  destruct (pages <? page) eqn:E2;
    [apply Z.ltb_lt in E2 | apply Z.ltb_ge in E2]; lia.
Qed.

Lemma pages_of_pos (n : Z) : 1 <= pages_of n.
Proof. unfold pages_of. lia. Qed.

Lemma clamp_range (page pages : Z) :
  1 <= pages -> 1 <= clamp page pages <= pages.
Proof.
  intros Hp. unfold clamp.
  destruct (page <? 1) eqn:E1; [lia|]. apply Z.ltb_ge in E1.
  destruct (pages <? page) eqn:E2;
    [apply Z.ltb_lt in E2 | apply Z.ltb_ge in E2]; lia.
Qed.

(** The window of a page that is in range lies inside the frame. *)
Lemma page_window_in_frame (n page : Z) :
  0 <= n -> 1 <= page <= pages_of n ->
  0 <= (page - 1) * 10 <= Z.min ((page - 1) * 10 + 10) n.
Proof.
  intros Hn [H1 H2]. rewrite <- total_pages_pages_of in H2.
  unfold items_per_page in H2.
  assert (Hq : page <= 1 \/ page <= (n + 10 - 1) / 10) by lia.
  destruct Hq as [Hq|Hq]; [lia|].
  revert Hq. Z.div_mod_to_equations. lia.
Qed.

Lemma slice_in_range {A : Type} (l : list A) (start stop : Z) :
  0 <= start <= stop -> stop <= Z.of_nat (length l) ->
  slice l start stop
  = firstn (Z.to_nat (stop - start)) (skipn (Z.to_nat start) l).
Proof.
  intros [H0 H1] H2. unfold slice, slice_bound.
  destruct (start <? 0) eqn:E1; [apply Z.ltb_lt in E1; lia|].
  destruct (stop <? 0) eqn:E2; [apply Z.ltb_lt in E2; lia|].
  rewrite !Z.min_l by lia. reflexivity.
Qed.

Lemma slice_in_range_length {A : Type} (l : list A) (start stop : Z) :
  0 <= start <= stop -> stop <= Z.of_nat (length l) ->
  Z.of_nat (length (slice l start stop)) = stop - start.
Proof.
  intros H H2. rewrite slice_in_range by assumption.
  rewrite length_firstn, length_skipn. lia.
Qed.

(** ** One run of [update_dashboard] *)

Lemma set_column_mismatch (df : list Listing) :
  forall values, length values <> length df ->
  exists msg, set_column df values = Raise (ValueError msg).
Proof.
  induction df as [|l df IH]; intros [|d values] Hlen; simpl in *;
    try (eexists; reflexivity); try congruence.
  destruct (IH values) as (msg & E); [congruence|].
  rewrite E. eexists. reflexivity.
Qed.

Lemma update_dashboard_unusable
      ops df bedrooms bathrooms price_range distance_data max_distance
      table_toggle current_page :
  store_usable df distance_data = false ->
  exists msg,
    update_dashboard ops df bedrooms bathrooms price_range distance_data
                     max_distance table_toggle current_page
    = Raise (ValueError msg).
Proof.
  unfold store_usable. destruct distance_data as [dd|]; [|discriminate].
  destruct (distances dd) as [|d ds] eqn:E; [discriminate|].
  intros Hlen. apply Nat.eqb_neq in Hlen.
  destruct (set_column_mismatch df (d :: ds) Hlen) as (msg & Hset).
  exists msg.
  unfold update_dashboard, filtered_view, add_distance_column.
  rewrite E. simpl truthy_list. cbv iota. rewrite Hset. reflexivity.
Qed.

Lemma update_dashboard_map_raises
      ops df bedrooms bathrooms price_range distance_data max_distance
      table_toggle current_page e :
  store_usable df distance_data = true ->
  main_map (apply_filters (decorate df distance_data) bedrooms bathrooms
                          price_range distance_data max_distance) = Raise e ->
  update_dashboard ops df bedrooms bathrooms price_range distance_data
                   max_distance table_toggle current_page = Raise e.
Proof.
  intros Hu Hmap. unfold update_dashboard.
  rewrite filtered_view_usable by exact Hu.
  cbv beta iota delta [bind]. rewrite Hmap. reflexivity.
Qed.

(** With a usable distance store and marker sizes that the figure
    accepts the callback returns, and each output is the value the
    code computes for it from the filtered frame [F] and the paged
    frame [T]. *)
Lemma update_dashboard_runs
      ops df bedrooms bathrooms price_range distance_data max_distance
      table_toggle current_page :
  store_usable df distance_data = true ->
  let F := apply_filters (decorate df distance_data) bedrooms bathrooms
                         price_range distance_data max_distance in
  let T := paged_frame ops df F distance_data table_toggle in
  main_map F = Ok tt ->
  exists v,
    update_dashboard ops df bedrooms bathrooms price_range distance_data
                     max_distance table_toggle current_page = Ok v
    /\ View.total_count v = length df
    /\ View.filtered_count v = length F
    /\ View.avg_price v = stat_avg_price ops F
    /\ View.avg_dist v = stat_avg_dist ops F distance_data
    /\ View.total_items v = Z.of_nat (length T)
    /\ View.total_pages v = pages_of (View.total_items v)
    /\ View.current_page v = clamp current_page (View.total_pages v)
    /\ View.start_idx v = (View.current_page v - 1) * 10
    /\ View.end_idx v = Z.min (View.start_idx v + 10) (View.total_items v)
    /\ View.table_data v = slice T (View.start_idx v) (View.end_idx v)
    /\ View.prev_disabled v = (View.current_page v <=? 1)
    /\ View.next_disabled v = (View.current_page v >=? View.total_pages v)
    /\ View.page_info_text v
       = ("Page " ++ str_Z (View.current_page v) ++ " of "
            ++ str_Z (View.total_pages v)
            ++ " (Showing " ++ str_Z (View.start_idx v + 1) ++ "-"
            ++ str_Z (View.end_idx v)
            ++ " of " ++ str_Z (View.total_items v) ++ " properties)")%string.
Proof.
  intros Hu F T Hmap. unfold update_dashboard.
  rewrite filtered_view_usable by exact Hu.
  cbv beta iota delta [bind]. fold F. rewrite Hmap.
  rewrite table_view_usable by exact Hu.
  cbv beta iota delta [bind]. fold T.
  eexists. split; [reflexivity|].
  cbn [View.total_count View.filtered_count View.avg_price View.avg_dist
       View.total_items View.total_pages View.current_page View.start_idx
       View.end_idx View.table_data View.prev_disabled View.next_disabled
       View.page_info_text].
  rewrite total_pages_pages_of.
  rewrite max_min_clamp by apply pages_of_pos.
  repeat split; reflexivity.
Qed.

(** Every run that returns is such a run. *)
Lemma update_dashboard_returns
      ops df bedrooms bathrooms price_range distance_data max_distance
      table_toggle current_page v :
  update_dashboard ops df bedrooms bathrooms price_range distance_data
                   max_distance table_toggle current_page = Ok v ->
  let F := apply_filters (decorate df distance_data) bedrooms bathrooms
                         price_range distance_data max_distance in
  let T := paged_frame ops df F distance_data table_toggle in
  store_usable df distance_data = true
  /\ main_map F = Ok tt
  /\ View.total_count v = length df
  /\ View.filtered_count v = length F
  /\ View.avg_price v = stat_avg_price ops F
  /\ View.avg_dist v = stat_avg_dist ops F distance_data
  /\ View.total_items v = Z.of_nat (length T)
  /\ View.total_pages v = pages_of (View.total_items v)
  /\ View.current_page v = clamp current_page (View.total_pages v)
  /\ View.start_idx v = (View.current_page v - 1) * 10
  /\ View.end_idx v = Z.min (View.start_idx v + 10) (View.total_items v)
  /\ View.table_data v = slice T (View.start_idx v) (View.end_idx v)
  /\ View.prev_disabled v = (View.current_page v <=? 1)
  /\ View.next_disabled v = (View.current_page v >=? View.total_pages v)
  /\ View.page_info_text v
     = ("Page " ++ str_Z (View.current_page v) ++ " of "
          ++ str_Z (View.total_pages v)
          ++ " (Showing " ++ str_Z (View.start_idx v + 1) ++ "-"
          ++ str_Z (View.end_idx v)
          ++ " of " ++ str_Z (View.total_items v) ++ " properties)")%string.
Proof.
  intros E F T.
  destruct (store_usable df distance_data) eqn:Hu.
  2: { destruct (update_dashboard_unusable ops df bedrooms bathrooms price_range
                   distance_data max_distance table_toggle current_page Hu)
         as (msg & H).
       rewrite H in E. discriminate. }
  destruct (main_map F) as [[]|e] eqn:Hmap.
  2: { rewrite (update_dashboard_map_raises ops df bedrooms bathrooms price_range
                  distance_data max_distance table_toggle current_page e Hu Hmap)
         in E.
       discriminate. }
  destruct (update_dashboard_runs ops df bedrooms bathrooms price_range
              distance_data max_distance table_toggle current_page Hu Hmap)
    as (v0 & E0 & Hfields).
  rewrite E in E0. injection E0 as <-.
  split; [reflexivity|]. split; [reflexivity|]. exact Hfields.
Qed.

Lemma main_map_of_empty : main_map [] = Ok tt.
Proof. reflexivity. Qed.

(** A filtered row whose bedrooms cell is missing has no valid marker
    size: the figure block raises and no view is returned. *)
Example missing_bedrooms_raise_in_the_figure :
  exists msg,
    update_dashboard exact_ops [MoreSamples.flat_without_bedrooms]
                     sel_all sel_all (0%Q, 10000%Q) None None show_filtered 1
    = Raise (ValueError msg).
Proof. eexists. vm_compute. reflexivity. Qed.

(** ** Membership in the filtered frame *)

Lemma apply_filters_In rows bedrooms bathrooms price_range distance_data
      max_distance (r : Row) :
  In r (apply_filters rows bedrooms bathrooms price_range distance_data max_distance)
  <-> In r rows
      /\ passes_rooms (Col.bedrooms (listing r)) bedrooms = true
      /\ passes_rooms (Col.bathrooms (listing r)) bathrooms = true
      /\ passes_price price_range (Col.price (listing r)) = true
      /\ match distance_data, max_distance with
         | Some _, Some m =>
             truthy_num m = true -> Qle_bool (distance_km r) m = true
         | _, _ => True
         end.
Proof.
  assert (Hrooms : forall (col : Row -> option Q) sel l,
             In r (if negb (is_all sel)
                   then filter (fun x => eq_selected (col x) sel) l else l)
             <-> In r l /\ passes_rooms (col r) sel = true).
  { intros col sel l. destruct sel; simpl.
    - tauto.
    - rewrite filter_In. destruct (col r); simpl; tauto.
    - rewrite filter_In. destruct (col r); simpl; tauto. }
  unfold apply_filters.
  destruct distance_data as [dd|], max_distance as [m|];
    try destruct (truthy_num m) eqn:Hm;
    repeat rewrite filter_In;
    rewrite (Hrooms (fun x => Col.bathrooms (listing x)));
    rewrite (Hrooms (fun x => Col.bedrooms (listing x)));
    unfold passes_price; rewrite ?andb_true_iff; try tauto.
  split; [intros H; repeat split; try tauto; discriminate | tauto].
Qed.

(** Narrowing the price interval never adds a row (for every value of
    the other criteria). *)
Lemma price_narrowing_never_grows
      rows bedrooms bathrooms distance_data max_distance
      (lo hi lo' hi' : Q) (r : Row) :
  (lo <= lo')%Q -> (hi' <= hi)%Q ->
  In r (apply_filters rows bedrooms bathrooms (lo', hi') distance_data max_distance) ->
  In r (apply_filters rows bedrooms bathrooms (lo, hi) distance_data max_distance).
Proof.
  intros Hlo Hhi. rewrite !apply_filters_In. unfold passes_price. simpl.
  intros (H1 & H2 & H3 & H4 & H5). repeat split; try assumption.
  apply andb_true_iff in H4 as [Ha Hb]. apply andb_true_iff.
  rewrite !Qle_bool_iff in *. split; eapply Qle_trans; eassumption.
Qed.

(** Raising a max distance that is not zero never removes a row. *)
Lemma max_distance_raising_never_shrinks
      rows bedrooms bathrooms price_range distance_data (m m' : Q) (r : Row) :
  truthy_num m = true -> (m <= m')%Q ->
  In r (apply_filters rows bedrooms bathrooms price_range distance_data (Some m)) ->
  In r (apply_filters rows bedrooms bathrooms price_range distance_data (Some m')).
Proof.
  intros Hm Hle. rewrite !apply_filters_In.
  intros (H1 & H2 & H3 & H4 & H5). repeat split; try assumption.
  destruct distance_data as [dd|]; [|exact I].
  intros _. specialize (H5 Hm). rewrite Qle_bool_iff in *.
  eapply Qle_trans; eassumption.
Qed.

Lemma filtered_count_le_total
      df bedrooms bathrooms price_range distance_data max_distance :
  distances_fit df distance_data = true ->
  (length (apply_filters (decorate df distance_data) bedrooms bathrooms
                         price_range distance_data max_distance)
   <= length df)%nat.
Proof.
  intros Hfit. rewrite <- (decorate_length df distance_data Hfit).
  unfold apply_filters.
  generalize (decorate df distance_data) as rows. intros rows.
  assert (Hif : forall (c : bool) (p : Row -> bool) l,
             (length (if c then filter p l else l) <= length l)%nat).
  { intros c p l. destruct c; [apply filter_length_le|lia]. }
  set (f1 := if negb (is_all bedrooms) then _ else _).
  set (f2 := if negb (is_all bathrooms) then _ else _).
  set (f3 := filter _ f2).
  assert (H1 : (length f1 <= length rows)%nat) by apply Hif.
  assert (H2 : (length f2 <= length f1)%nat) by apply Hif.
  assert (H3 : (length f3 <= length f2)%nat) by apply filter_length_le.
  assert (H4 : (length match distance_data, max_distance with
                       | Some _, Some m =>
                           if truthy_num m
                           then filter (fun r => Qle_bool (distance_km r) m) f3
                           else f3
                       | _, _ => f3
                       end <= length f3)%nat).
  { destruct distance_data, max_distance; try lia. apply Hif. }
  lia.
Qed.

(** ** Cleaning *)

Lemma clean_row_fails parse_number df row :
  fails_cleaning parse_number row = true ->
  DatasetStore.clean_row parse_number df row = None.
Proof.
  unfold fails_cleaning, DatasetStore.clean_row.
  destruct (DatasetStore.to_numeric parse_number (DatasetStore.cell "price" row));
    destruct (DatasetStore.to_numeric parse_number
                (DatasetStore.cell "coordinates/latitude" row));
    destruct (DatasetStore.to_numeric parse_number
                (DatasetStore.cell "coordinates/longitude" row));
    simpl; intros H; try reflexivity; discriminate.
Qed.

Lemma clean_rows_all_fail parse_number df rows :
  forallb (fails_cleaning parse_number) rows = true ->
  DatasetStore.clean_rows parse_number df rows = [].
Proof.
  induction rows as [|row rows IH]; simpl; [reflexivity|].
  intros H. apply andb_true_iff in H as [Hrow Hrows].
  rewrite (clean_row_fails _ _ _ Hrow). apply IH. exact Hrows.
Qed.

(** * The claims *)
(* ================================================================== *)

Import Samples.

(** C1 (the code departs from the claim).  The claim: with an applied
    distance query, a max distance of 0 keeps only the listings at
    distance 0.  The code tests [distance_data and max_distance], and
    0 is false: for one flat 5 km from the origin and a max distance of
    0 the distance step is skipped, the flat stays in the filtered
    frame, the count is 1 and the average price is not "N/A", although
    the flat fails the distance test [5 <= 0]. *)
Theorem C1_zero_max_distance_keeps_distant_flat :
  exists v,
    update_dashboard exact_ops one_flat sel_all sel_all (2000%Q, 4000%Q)
                     (Some (applied [5%Q])) (Some 0%Q) show_filtered 1 = Ok v
    /\ View.filtered_count v = 1%nat
    /\ View.avg_price v = "£3000"%string
    /\ passes_distance (Some (applied [5%Q])) (Some 0%Q) 5 = false.
Proof.
  eexists. split; [vm_compute; reflexivity|].
  repeat split; reflexivity.
Qed.

(** C2 (the code departs from the claim).  The claim: raising the max
    distance never shrinks the filtered frame.  Because a max distance
    of 0 switches the distance step off, raising it from 0 to 1 removes
    the flat that is 5 km away.  (For a max distance other than 0, and
    for the price interval, the claim holds:
    [max_distance_raising_never_shrinks], [price_narrowing_never_grows].) *)
Theorem C2_raising_max_distance_from_zero_shrinks :
  (0 <= 1)%Q
  /\ filtered_view one_flat sel_all sel_all (2000%Q, 4000%Q)
                   (Some (applied [5%Q])) (Some 0%Q)
     = Ok [mkRow (flat 3000 2) 5]
  /\ filtered_view one_flat sel_all sel_all (2000%Q, 4000%Q)
                   (Some (applied [5%Q])) (Some 1%Q)
     = Ok [].
Proof.
  split; [discriminate|]. split; vm_compute; reflexivity.
Qed.

(** C3 (refuted as stated).  A file whose records all fail the cleaning
    loads without an error, into a store without listings. *)
Lemma C3_unusable_file_loads :
  forallb (fails_cleaning parse_digits) (DatasetStore.records unusable_file) = true
  /\ DatasetStore.prepare_data parse_digits unusable_file = Ok empty_store
  /\ forall e, DatasetStore.prepare_data parse_digits unusable_file <> Raise e.
Proof.
  split; [reflexivity|]. split; [reflexivity|].
  intros e. vm_compute. discriminate.
Qed.

(** C3 (as amended).  For every reading of numbers: when the file has
    the five columns the block reads and every record fails the
    cleaning (price, latitude or longitude missing or not a number),
    the preparation raises nothing and yields the empty store: no
    listings and no bedroom or bathroom options. *)
Theorem C3_no_valid_rows_gives_empty_store
        (parse_number : string -> option Q) (df : DatasetStore.RawTable) :
  has_required_columns df = true ->
  forallb (fails_cleaning parse_number) (DatasetStore.records df) = true ->
  DatasetStore.prepare_data parse_number df = Ok empty_store.
Proof.
  unfold has_required_columns. simpl. rewrite !andb_true_iff.
  intros (Hp & Hbe & Hba & Hla & Hlo & _) Hrows.
  unfold DatasetStore.prepare_data, DatasetStore.getitem.
  rewrite Hp, Hbe, Hba, Hla, Hlo. cbv beta iota delta [bind].
  rewrite (clean_rows_all_fail _ _ _ Hrows). reflexivity.
Qed.

Lemma C3_no_valid_rows_gives_empty_store_witness :
  has_required_columns unusable_file = true
  /\ forallb (fails_cleaning parse_digits) (DatasetStore.records unusable_file) = true
  /\ DatasetStore.prepare_data parse_digits unusable_file = Ok empty_store.
Proof.
  split; [reflexivity|]. split; [reflexivity|].
  apply (C3_no_valid_rows_gives_empty_store parse_digits unusable_file);
    reflexivity.
Defined.

(** C4 (refuted as stated).  Two flats of which the price range keeps
    one, display mode "all": the table pages over both flats, yet the
    count and the average price are those of the one flat kept, not
    those of the full dataset. *)
Lemma C4_all_mode_statistics_stay_filtered :
  exists v,
    update_dashboard exact_ops two_flats sel_all sel_all (2000%Q, 4000%Q)
                     None None show_all 1 = Ok v
    /\ View.total_items v = 2
    /\ View.filtered_count v = 1%nat
    /\ View.avg_price v = "£3000"%string
    /\ stat_avg_price exact_ops (decorate two_flats None) = "£4000"%string.
Proof.
  eexists. split; [vm_compute; reflexivity|].
  repeat split; reflexivity.
Qed.

(** C4 (as amended).  The display mode selects the frame of the
    Paginator only.  Whenever the callback returns in both modes: in
    mode "all" the table pages over the full cleaned dataset, each row
    carrying the last applied distance, rounded to three places, when
    a distance was applied; in mode "filtered" it pages over the
    filtered frame.  The summary statistics (filtered count, average
    price, average distance) are those of the filtered frame in both
    modes. *)
Theorem C4_display_mode_selects_the_paged_frame
        ops df bedrooms bathrooms price_range distance_data max_distance
        current_page v_all v_filtered :
  update_dashboard ops df bedrooms bathrooms price_range distance_data
                   max_distance show_all current_page = Ok v_all ->
  update_dashboard ops df bedrooms bathrooms price_range distance_data
                   max_distance show_filtered current_page = Ok v_filtered ->
  let F := apply_filters (decorate df distance_data) bedrooms bathrooms
                         price_range distance_data max_distance in
  let T_all := paged_frame ops df F distance_data show_all in
  let T_filtered := map (round_row ops) (map as_table_row F) in
  (* mode "all": the Paginator runs over the full dataset *)
  map View.listing T_all = df
  /\ (forall dd, distance_data = Some dd -> distances dd <> [] ->
      map View.distance_km T_all
      = map (fun d => Some (series_round3 ops d)) (distances dd))
  /\ View.total_items v_all = Z.of_nat (length df)
  /\ View.total_pages v_all = pages_of (Z.of_nat (length df))
  /\ View.table_data v_all
     = slice T_all (View.start_idx v_all) (View.end_idx v_all)
  (* mode "filtered": the Paginator runs over the filtered frame *)
  /\ View.total_items v_filtered = Z.of_nat (length F)
  /\ View.total_pages v_filtered = pages_of (Z.of_nat (length F))
  /\ View.table_data v_filtered
     = slice T_filtered (View.start_idx v_filtered) (View.end_idx v_filtered)
  (* both modes: the statistics are those of the filtered frame *)
  /\ View.filtered_count v_all = length F
  /\ View.filtered_count v_filtered = length F
  /\ View.avg_price v_all = stat_avg_price ops F
  /\ View.avg_price v_filtered = stat_avg_price ops F
  /\ View.avg_dist v_all = stat_avg_dist ops F distance_data
  /\ View.avg_dist v_filtered = stat_avg_dist ops F distance_data.
Proof.
  intros Ea Ef F T_all T_filtered.
  destruct (update_dashboard_returns _ _ _ _ _ _ _ _ _ _ Ea)
    as (Hu & _ & _ & Aco & Apr & Adi & Ati & Atp & _ & _ & _ & Atd & _).
  destruct (update_dashboard_returns _ _ _ _ _ _ _ _ _ _ Ef)
    as (_ & _ & _ & Fco & Fpr & Fdi & Fti & Ftp & _ & _ & _ & Ftd & _).
  fold F in Aco, Apr, Adi, Ati, Atd, Fco, Fpr, Fdi, Fti, Ftd.
  fold T_all in Ati, Atd.
  assert (Hlen : length T_all = length df)
    by (apply paged_frame_all_length; exact Hu).
  rewrite Hlen in Ati.
  rewrite paged_frame_filtered_length in Fti.
  repeat match goal with |- _ /\ _ => split end;
    try assumption; try congruence.
  - (* the listings of the frame in mode "all" *)
    unfold T_all, paged_frame.
    destruct (has_distances distance_data).
    + rewrite !map_map.
      etransitivity; [|exact (decorate_listing_usable df distance_data Hu)].
      apply map_ext. reflexivity.
    + rewrite !map_map. simpl. apply map_id.
  - (* its distances *)
    intros dd Hdd Hne. subst distance_data.
    assert (Hfit : distances_fit df (Some dd) = true).
    { destruct (usable_cases _ _ Hu) as [H | (dd' & Hdd' & Hnil)]; [exact H|].
      injection Hdd' as <-. contradiction. }
    unfold T_all, paged_frame, has_distances, truthy_opt.
    assert (Ht : truthy_list (distances dd) = true)
      by (destruct (distances dd); [congruence|reflexivity]).
    rewrite Ht.
    rewrite <- (decorate_distance df dd Hfit). rewrite !map_map.
    apply map_ext. reflexivity.
Qed.

Lemma C4_display_mode_selects_the_paged_frame_witness :
  exists v_all v_filtered,
    update_dashboard exact_ops two_flats sel_all sel_all (2000%Q, 4000%Q)
                     (Some (applied [5%Q; 1%Q])) (Some 10%Q) show_all 1
    = Ok v_all
    /\ update_dashboard exact_ops two_flats sel_all sel_all (2000%Q, 4000%Q)
                        (Some (applied [5%Q; 1%Q])) (Some 10%Q) show_filtered 1
       = Ok v_filtered
    /\ View.total_items v_all = 2
    /\ View.total_items v_filtered = 1
    /\ View.filtered_count v_all = View.filtered_count v_filtered.
Proof.
  destruct (update_dashboard exact_ops two_flats sel_all sel_all (2000%Q, 4000%Q)
              (Some (applied [5%Q; 1%Q])) (Some 10%Q) show_all 1)
    as [va|e] eqn:Ea; [|vm_compute in Ea; discriminate Ea].
  destruct (update_dashboard exact_ops two_flats sel_all sel_all (2000%Q, 4000%Q)
              (Some (applied [5%Q; 1%Q])) (Some 10%Q) show_filtered 1)
    as [vf|e] eqn:Ef; [|vm_compute in Ef; discriminate Ef].
  exists va, vf. split; [reflexivity|]. split; [reflexivity|].
  destruct (C4_display_mode_selects_the_paged_frame
              exact_ops two_flats sel_all sel_all (2000%Q, 4000%Q)
              (Some (applied [5%Q; 1%Q])) (Some 10%Q) 1 va vf Ea Ef)
    as (_ & _ & Ati & _ & _ & Fti & _ & _ & Aco & Fco & _).
  split; [exact Ati|]. split; [exact Fti|].
  rewrite Aco, Fco. reflexivity.
Defined.

(** ** The page after a navigation event *)

Lemma update_page_next rest current_page :
  update_page (id_next_page_btn :: rest) current_page = current_page + 1.
Proof. reflexivity. Qed.

Lemma update_page_prev rest current_page :
  update_page (id_prev_page_btn :: rest) current_page = Z.max 1 (current_page - 1).
Proof. reflexivity. Qed.

Lemma clamp_next_on_last_page (page pages : Z) :
  1 <= pages -> clamp page pages = pages -> clamp (page + 1) pages = pages.
Proof.
  unfold clamp. intros Hp.
  destruct (page <? 1) eqn:E1, (pages <? page) eqn:E2,
           (page + 1 <? 1) eqn:E3, (pages <? page + 1) eqn:E4;
    rewrite ?Z.ltb_lt, ?Z.ltb_ge in *; lia.
Qed.

Lemma clamp_first_page (pages : Z) : 1 <= pages -> clamp 1 pages = 1.
Proof.
  unfold clamp. intros Hp. simpl.
  destruct (pages <? 1) eqn:E; [apply Z.ltb_lt in E; lia | reflexivity].
Qed.

(** C5 (refuted as stated).  Twenty-five flats, a price range that
    keeps none of them, display mode "all", page 3: the filtered count
    is 0, whose page count is 1, and the view reports page 3. *)
Lemma C5_all_mode_page_exceeds_pages_of_filtered_count :
  exists v,
    update_dashboard exact_ops twenty_five_flats sel_all sel_all (0%Q, 1000%Q)
                     None None show_all 3 = Ok v
    /\ View.filtered_count v = 0%nat
    /\ pages_of (Z.of_nat (View.filtered_count v)) = 1
    /\ View.current_page v = 3.
Proof.
  eexists. split; [vm_compute; reflexivity|].
  repeat split; reflexivity.
Qed.

(** C5 (as amended).  The page a view computation reports is always in
    [[1, total_pages]], where [total_pages] is the page count of the
    paged frame: of the filtered count in display mode "filtered", of
    the total count in display mode "all".  When the view shows the
    last page and the next event fires, [update_page] stores
    [current_page + 1]; the following view computation clamps it: the
    page reported is unchanged and [has_next] is false. *)
Theorem C5_reported_page_in_range_and_next_on_last_page
        ops df bedrooms bathrooms price_range distance_data max_distance
        table_toggle rest stored_page v :
  update_dashboard ops df bedrooms bathrooms price_range distance_data
                   max_distance table_toggle stored_page = Ok v ->
  1 <= View.current_page v <= View.total_pages v
  /\ (table_toggle = show_filtered ->
      View.total_pages v = pages_of (Z.of_nat (View.filtered_count v)))
  /\ (table_toggle = show_all ->
      View.total_pages v = pages_of (Z.of_nat (View.total_count v)))
  /\ forall v',
       update_dashboard ops df bedrooms bathrooms price_range distance_data
                        max_distance table_toggle
                        (update_page (id_next_page_btn :: rest) stored_page)
       = Ok v' ->
       View.current_page v = View.total_pages v ->
       View.total_pages v' = View.total_pages v
       /\ View.current_page v' = View.current_page v
       /\ View.has_next v' = false.
Proof.
  intros E.
  destruct (update_dashboard_returns _ _ _ _ _ _ _ _ _ _ E)
    as (Hu & _ & Htc & Hco & _ & _ & Hti & Htp & Hcp & _).
  assert (Hpos : 1 <= View.total_pages v)
    by (rewrite Htp; apply pages_of_pos).
  split; [rewrite Hcp; apply clamp_range; exact Hpos|].
  split; [|split].
  - intros ->. rewrite Htp, Hti, Hco.
    now rewrite paged_frame_filtered_length.
  - intros ->. rewrite Htp, Hti, Htc.
    now rewrite paged_frame_all_length.
  - intros v' E' Hlast.
    destruct (update_dashboard_returns _ _ _ _ _ _ _ _ _ _ E')
      as (_ & _ & _ & _ & _ & _ & Hti' & Htp' & Hcp' & _ & _ & _ & _ & Hnx' & _).
    assert (Hsame : View.total_pages v' = View.total_pages v)
      by (rewrite Htp', Htp, Hti', Hti; reflexivity).
    split; [exact Hsame|].
    assert (Hcp'' : View.current_page v' = View.total_pages v).
    { rewrite Hcp', Hsame, update_page_next.
      apply clamp_next_on_last_page; [exact Hpos|].
      rewrite <- Hcp. exact Hlast. }
    split; [rewrite Hcp''; symmetry; exact Hlast|].
    unfold View.has_next. rewrite Hnx', Hcp'', Hsame.
    rewrite Z.geb_leb, Z.leb_refl. reflexivity.
Qed.

Lemma C5_reported_page_in_range_and_next_on_last_page_witness :
  exists v v',
    update_dashboard exact_ops twenty_five_flats sel_all sel_all (0%Q, 10000%Q)
                     None None show_filtered 3 = Ok v
    /\ update_dashboard exact_ops twenty_five_flats sel_all sel_all
                        (0%Q, 10000%Q) None None show_filtered
                        (update_page [id_next_page_btn] 3) = Ok v'
    /\ 1 <= View.current_page v <= View.total_pages v
    /\ View.current_page v' = View.current_page v
    /\ View.has_next v' = false.
Proof.
  destruct (update_dashboard exact_ops twenty_five_flats sel_all sel_all
              (0%Q, 10000%Q) None None show_filtered 3)
    as [v|e] eqn:E; [|vm_compute in E; discriminate E].
  destruct (update_dashboard exact_ops twenty_five_flats sel_all sel_all
              (0%Q, 10000%Q) None None show_filtered
              (update_page [id_next_page_btn] 3))
    as [v'|e] eqn:E'; [|vm_compute in E'; discriminate E'].
  exists v, v'. split; [reflexivity|]. split; [reflexivity|].
  destruct (C5_reported_page_in_range_and_next_on_last_page
              exact_ops twenty_five_flats sel_all sel_all (0%Q, 10000%Q)
              None None show_filtered [] 3 v E)
    as (Hrange & _ & _ & Hnext).
  assert (Hlast : View.current_page v = View.total_pages v).
  { vm_compute in E. injection E as <-. reflexivity. }
  destruct (Hnext v' E' Hlast) as (_ & Hcp' & Hnx').
  split; [exact Hrange|]. split; assumption.
Defined.

(** C6 (refuted as stated).  Eleven flats, a price range that keeps
    none of them, display mode "all": the filtered count is 0, whose
    page count is 1, yet the view has 2 pages and shows page 2. *)
Lemma C6_all_mode_pages_follow_the_total_count :
  exists v,
    update_dashboard exact_ops eleven_flats sel_all sel_all (0%Q, 1000%Q)
                     None None show_all 2 = Ok v
    /\ View.filtered_count v = 0%nat
    /\ pages_of (Z.of_nat (View.filtered_count v)) = 1
    /\ View.total_pages v = 2
    /\ View.current_page v = 2.
Proof.
  eexists. split; [vm_compute; reflexivity|].
  repeat split; reflexivity.
Qed.

(** C6 (as amended).  With [total_items] the size of the paged frame
    (the filtered count in display mode "filtered", the total count in
    display mode "all"), every view computation that returns yields
    [total_pages = max(1, ceil(total_items / 10))], a page clamped into
    [[1, total_pages]], the rows of the frame at the indices from
    [(current_page - 1) * 10] up to, not including,
    [min(current_page * 10, total_items)],
    [has_prev = (current_page > 1)] and
    [has_next = (current_page < total_pages)]. *)
Theorem C6_page_arithmetic
        ops df bedrooms bathrooms price_range distance_data max_distance
        table_toggle stored_page v :
  update_dashboard ops df bedrooms bathrooms price_range distance_data
                   max_distance table_toggle stored_page = Ok v ->
  let F := apply_filters (decorate df distance_data) bedrooms bathrooms
                         price_range distance_data max_distance in
  let T := paged_frame ops df F distance_data table_toggle in
  View.total_items v = Z.of_nat (length T)
  /\ View.total_items v
     = match table_toggle with
       | show_filtered => Z.of_nat (View.filtered_count v)
       | show_all => Z.of_nat (View.total_count v)
       end
  /\ View.total_pages v = pages_of (View.total_items v)
  /\ View.current_page v = clamp stored_page (View.total_pages v)
  /\ 1 <= View.current_page v <= View.total_pages v
  /\ View.start_idx v = (View.current_page v - 1) * 10
  /\ View.end_idx v = Z.min (View.current_page v * 10) (View.total_items v)
  /\ 0 <= View.start_idx v <= View.end_idx v
  /\ View.end_idx v <= View.total_items v
  /\ View.table_data v
     = firstn (Z.to_nat (View.end_idx v - View.start_idx v))
              (skipn (Z.to_nat (View.start_idx v)) T)
  /\ Z.of_nat (length (View.table_data v))
     = View.end_idx v - View.start_idx v
  /\ View.has_prev v = (1 <? View.current_page v)
  /\ View.has_next v = (View.current_page v <? View.total_pages v).
Proof.
  intros E F T.
  destruct (update_dashboard_returns _ _ _ _ _ _ _ _ _ _ E)
    as (Hu & _ & Htc & Hco & _ & _ & Hti & Htp & Hcp & Hst & Hen & Htd & Hpv & Hnx & _).
  fold F in Hco, Hti, Htd. fold T in Hti, Htd.
  assert (Hpos : 1 <= View.total_pages v)
    by (rewrite Htp; apply pages_of_pos).
  assert (Hrange : 1 <= View.current_page v <= View.total_pages v)
    by (rewrite Hcp; apply clamp_range; exact Hpos).
  assert (Hwin : 0 <= View.start_idx v <= View.end_idx v).
  { rewrite Hen, Hst. apply page_window_in_frame.
    - rewrite Hti. lia.
    - rewrite <- Htp. exact Hrange. }
  assert (Hend : View.end_idx v <= Z.of_nat (length T))
    by (rewrite Hen, Hti; lia).
  repeat match goal with |- _ /\ _ => split end;
    try assumption; try (apply Hrange); try (apply Hwin).
  - destruct table_toggle.
    + rewrite Hti, Hco. unfold T. now rewrite paged_frame_filtered_length.
    + rewrite Hti, Htc. unfold T. now rewrite paged_frame_all_length.
  - rewrite Hen, Hst. f_equal. lia.
  - rewrite Hti. exact Hend.
  - rewrite Htd. apply slice_in_range; assumption.
  - rewrite Htd. apply slice_in_range_length; assumption.
  - unfold View.has_prev. rewrite Hpv. symmetry. apply Z.ltb_antisym.
  - unfold View.has_next. rewrite Hnx, Z.geb_leb. symmetry.
    apply Z.ltb_antisym.
Qed.

Lemma C6_page_arithmetic_witness :
  exists v,
    update_dashboard exact_ops twenty_five_flats sel_all sel_all (0%Q, 10000%Q)
                     None None show_filtered 1 = Ok v
    /\ View.total_pages v = pages_of (View.total_items v)
    /\ View.current_page v = clamp 1 (View.total_pages v).
Proof.
  destruct (update_dashboard exact_ops twenty_five_flats sel_all sel_all
              (0%Q, 10000%Q) None None show_filtered 1)
    as [v|e] eqn:E; [|vm_compute in E; discriminate E].
  exists v. split; [reflexivity|].
  destruct (C6_page_arithmetic
              exact_ops twenty_five_flats sel_all sel_all (0%Q, 10000%Q)
              None None show_filtered 1 v E)
    as (_ & _ & Htp & Hcp & _).
  split; assumption.
Defined.

(** C7.  When a filter criterion changes (bedrooms, bathrooms, price
    range, max distance) or a newly applied distance query arrives in
    the distance store, [update_page] stores page 1 whatever the
    previous page was, and every view computed from it reports
    page 1. *)
Theorem C7_criterion_or_query_change_resets_page
        (i : input_id) (rest : list input_id) (previous_page : Z) :
  is_criterion_or_query i = true ->
  update_page (i :: rest) previous_page = 1
  /\ forall ops df bedrooms bathrooms price_range distance_data max_distance
            table_toggle v,
       update_dashboard ops df bedrooms bathrooms price_range distance_data
                        max_distance table_toggle
                        (update_page (i :: rest) previous_page) = Ok v ->
       View.current_page v = 1.
Proof.
  intros Hi.
  assert (Hreset : update_page (i :: rest) previous_page = 1)
    by (destruct i; try discriminate; reflexivity).
  split; [exact Hreset|].
  intros ops df bedrooms bathrooms price_range distance_data max_distance
         table_toggle v E.
  rewrite Hreset in E.
  destruct (update_dashboard_returns _ _ _ _ _ _ _ _ _ _ E)
    as (_ & _ & _ & _ & _ & _ & _ & Htp & Hcp & _).
  rewrite Hcp. apply clamp_first_page. rewrite Htp. apply pages_of_pos.
Qed.

Lemma C7_criterion_or_query_change_resets_page_witness :
  is_criterion_or_query id_price_slider = true
  /\ update_page [id_price_slider] 3 = 1
  /\ exists v,
       update_dashboard exact_ops twenty_five_flats sel_all sel_all
                        (0%Q, 10000%Q) None None show_filtered
                        (update_page [id_price_slider] 3) = Ok v
       /\ View.current_page v = 1.
Proof.
  split; [reflexivity|].
  destruct (C7_criterion_or_query_change_resets_page id_price_slider [] 3 eq_refl)
    as (Hreset & Hview).
  split; [exact Hreset|].
  destruct (update_dashboard exact_ops twenty_five_flats sel_all sel_all
              (0%Q, 10000%Q) None None show_filtered
              (update_page [id_price_slider] 3))
    as [v|e] eqn:E; [|vm_compute in E; discriminate E].
  exists v. split; [reflexivity|].
  exact (Hview exact_ops twenty_five_flats sel_all sel_all (0%Q, 10000%Q)
               None None show_filtered v E).
Defined.

(** C10.  Every input event other than the two navigation buttons
    makes [update_page] store page 1: also the display-mode toggle and
    an edit of the max distance, which change neither the filter
    criteria list of the description nor the applied distance query. *)
Theorem C10_every_input_but_navigation_resets_page
        (i : input_id) (rest : list input_id) (previous_page : Z) :
  is_navigation i = false ->
  update_page (i :: rest) previous_page = 1.
Proof.
  intros Hi. destruct i; try discriminate; reflexivity.
Qed.

Lemma C10_every_input_but_navigation_resets_page_witness :
  is_navigation id_table_toggle = false
  /\ is_navigation id_distance_input = false
  /\ update_page [id_table_toggle] 3 = 1
  /\ update_page [id_distance_input] 3 = 1.
Proof.
  split; [reflexivity|]. split; [reflexivity|]. split.
  - apply (C10_every_input_but_navigation_resets_page id_table_toggle [] 3).
    reflexivity.
  - apply (C10_every_input_but_navigation_resets_page id_distance_input [] 3).
    reflexivity.
Defined.

Lemma update_page_initial current_page : update_page [] current_page = 1.
Proof. reflexivity. Qed.

(** C8 (refuted as stated).  The criteria "any", "any", the full
    extent of the price slider and no distance do not keep a listing
    priced above the slider: the filter is not the identity. *)
Lemma C8_full_slider_range_drops_a_listing :
  filtered_view penthouse sel_all sel_all (price_slider_min, price_slider_max)
                None None = Ok []
  /\ decorate penthouse None <> [].
Proof.
  split; [vm_compute; reflexivity | discriminate].
Qed.

(** C8 (as amended).  For a max distance that is unset or not zero,
    the filtered frame is the dataset, decorated with its distances,
    filtered by the conjunction of the four predicates: bedrooms (kept
    when the criterion is "any" or the values are equal), bathrooms,
    [price_min <= price <= price_max], and [distance <= max_distance]
    when a distance is applied and a max distance is set.  Being a
    [filter], the result keeps the relative order.  With "any", "any",
    no distance, and a price range that contains every price of the
    dataset, the filter is the identity. *)
Theorem C8_filter_is_the_conjunction
        df bedrooms bathrooms price_range distance_data max_distance :
  distances_fit df distance_data = true ->
  nonzero_or_unset max_distance = true ->
  let P := passes bedrooms bathrooms price_range distance_data max_distance in
  filtered_view df bedrooms bathrooms price_range distance_data max_distance
  = Ok (filter P (decorate df distance_data))
  /\ map listing (decorate df distance_data) = df
  /\ (forall r, In r (filter P (decorate df distance_data))
                <-> In r (decorate df distance_data) /\ P r = true)
  /\ (bedrooms = sel_all -> bathrooms = sel_all ->
      prices_within price_range df = true ->
      distance_data = None \/ max_distance = None ->
      filter P (decorate df distance_data) = decorate df distance_data).
Proof.
  intros Hfit Hnz P.
  split.
  { rewrite filtered_view_ok by exact Hfit.
    rewrite apply_filters_passes by exact Hnz. reflexivity. }
  split; [apply decorate_listing; exact Hfit|].
  split; [intros r; apply filter_In|].
  intros -> -> Hprices Hnone.
  apply filter_all_true. apply forallb_forall. intros r Hr.
  unfold P, passes. simpl.
  assert (Hd : passes_distance distance_data max_distance (distance_km r) = true).
  { unfold passes_distance.
    destruct Hnone as [-> | ->]; [reflexivity|].
    destruct distance_data; reflexivity. }
  rewrite Hd, andb_true_r.
  unfold prices_within in Hprices.
  rewrite forallb_forall in Hprices. apply Hprices.
  rewrite <- (decorate_listing df distance_data Hfit).
  apply in_map. exact Hr.
Qed.

Lemma C8_filter_is_the_conjunction_witness :
  distances_fit two_flats (Some (applied [5%Q; 1%Q])) = true
  /\ nonzero_or_unset (Some 2%Q) = true
  /\ filtered_view two_flats (sel_value 2) sel_all (2000%Q, 6000%Q)
                   (Some (applied [5%Q; 1%Q])) (Some 2%Q)
     = Ok [mkRow (flat 5000 2) 1].
Proof.
  split; [reflexivity|]. split; [reflexivity|].
  destruct (C8_filter_is_the_conjunction
              two_flats (sel_value 2) sel_all (2000%Q, 6000%Q)
              (Some (applied [5%Q; 1%Q])) (Some 2%Q) eq_refl eq_refl)
    as (E & _).
  rewrite E. reflexivity.
Defined.

(** ** The two averages *)

Lemma pound_prefix_is_not_na (s : string) :
  ("£" ++ s)%string <> "N/A"%string.
Proof. simpl. discriminate. Qed.

Lemma km_suffix_is_not_na (s : string) :
  (s ++ " km")%string <> "N/A"%string.
Proof.
  destruct s as [|a [|b [|c [|d s]]]]; simpl; intros H;
    try discriminate H; injection H; intros; discriminate.
Qed.

(** C9.  In every view the callback returns, for whatever the
    floating-point mean and its formats compute: the average price is
    the mean price of the filtered frame in the format of whole
    pounds, and it is "N/A" exactly when the filtered frame is empty;
    the average distance is the mean of the distance column of the
    filtered frame in the format of one decimal, followed by " km",
    and it is "N/A" exactly when the filtered frame is empty or no
    distance query is applied. *)
Theorem C9_averages
        ops df bedrooms bathrooms price_range distance_data max_distance
        table_toggle current_page v :
  update_dashboard ops df bedrooms bathrooms price_range distance_data
                   max_distance table_toggle current_page = Ok v ->
  let F := apply_filters (decorate df distance_data) bedrooms bathrooms
                         price_range distance_data max_distance in
  View.filtered_count v = length F
  /\ View.avg_price v
     = match F with
       | [] => "N/A"%string
       | _ :: _ =>
           ("£" ++ format_0f ops
                     (series_mean ops (map (fun r => Col.price (listing r)) F)))%string
       end
  /\ (View.avg_price v = "N/A"%string <-> F = [])
  /\ View.avg_dist v
     = match F, distance_data with
       | _ :: _, Some _ =>
           (format_1f ops (series_mean ops (map distance_km F)) ++ " km")%string
       | _, _ => "N/A"%string
       end
  /\ (View.avg_dist v = "N/A"%string <-> F = [] \/ distance_data = None).
Proof.
  intros E F.
  destruct (update_dashboard_returns _ _ _ _ _ _ _ _ _ _ E)
    as (_ & _ & _ & Hco & Hpr & Hdi & _).
  fold F in Hco, Hpr, Hdi.
  split; [exact Hco|].
  rewrite Hpr, Hdi. unfold stat_avg_price, stat_avg_dist.
  destruct F as [|r F'] eqn:EF.
  - simpl. repeat split; try reflexivity; intros; auto.
  - change (0 <? length (r :: F'))%nat with true. cbv iota.
    split; [reflexivity|].
    split.
    { split; [intros H; exfalso; exact (pound_prefix_is_not_na _ H)
             | discriminate]. }
    destruct distance_data as [dd|]; simpl truthy_opt; cbv iota.
    + split; [reflexivity|].
      split; [intros H; exfalso; exact (km_suffix_is_not_na _ H)|].
      intros [H|H]; discriminate.
    + split; [reflexivity|]. split; [intros _; right; reflexivity|reflexivity].
Qed.

Lemma C9_averages_witness :
  exists v,
    update_dashboard exact_ops two_flats sel_all sel_all (2000%Q, 6000%Q)
                     (Some (applied [5%Q; 1%Q])) (Some 10%Q) show_filtered 1
    = Ok v
    /\ View.avg_price v = "£4000"%string
    /\ View.avg_dist v = "3.0 km"%string.
Proof.
  destruct (update_dashboard exact_ops two_flats sel_all sel_all (2000%Q, 6000%Q)
              (Some (applied [5%Q; 1%Q])) (Some 10%Q) show_filtered 1)
    as [v|e] eqn:E; [|vm_compute in E; discriminate E].
  exists v. split; [reflexivity|].
  destruct (C9_averages exact_ops two_flats sel_all sel_all (2000%Q, 6000%Q)
              (Some (applied [5%Q; 1%Q])) (Some 10%Q) show_filtered 1 v E)
    as (_ & Hpr & _ & Hdi & _).
  split; [rewrite Hpr | rewrite Hdi]; reflexivity.
Defined.

(* ================================================================== *)
(** * Further properties of the code *)
(* ================================================================== *)

Import Derived MoreSamples.

(** ** Data preparation *)

Lemma clean_row_valid parse_number df row :
  fails_cleaning parse_number row = false ->
  exists l,
    DatasetStore.clean_row parse_number df row = Some l
    /\ DatasetStore.to_numeric parse_number (DatasetStore.cell "price" row)
       = Some (Col.price l)
    /\ DatasetStore.to_numeric parse_number
         (DatasetStore.cell "coordinates/latitude" row) = Some (Col.latitude l)
    /\ DatasetStore.to_numeric parse_number
         (DatasetStore.cell "coordinates/longitude" row) = Some (Col.longitude l)
    /\ Col.bedrooms l
       = DatasetStore.to_numeric parse_number (DatasetStore.cell "bedrooms" row)
    /\ Col.bathrooms l
       = DatasetStore.to_numeric parse_number (DatasetStore.cell "bathrooms" row).
Proof.
  unfold fails_cleaning, DatasetStore.clean_row.
  destruct (DatasetStore.to_numeric parse_number (DatasetStore.cell "price" row));
    destruct (DatasetStore.to_numeric parse_number
                (DatasetStore.cell "coordinates/latitude" row));
    destruct (DatasetStore.to_numeric parse_number
                (DatasetStore.cell "coordinates/longitude" row));
    simpl; intros H; try discriminate.
  eexists. split; [reflexivity|]. simpl. repeat split; reflexivity.
Qed.

Lemma clean_rows_In parse_number df rows l :
  In l (DatasetStore.clean_rows parse_number df rows) ->
  exists row, In row rows
              /\ DatasetStore.clean_row parse_number df row = Some l.
Proof.
  induction rows as [|row rows IH]; simpl; [tauto|].
  destruct (DatasetStore.clean_row parse_number df row) as [l'|] eqn:E.
  - intros [<- | H].
    + exists row. split; [now left | exact E].
    + destruct (IH H) as (row' & Hin & Hrow). exists row'. split; [now right | exact Hrow].
  - intros H. destruct (IH H) as (row' & Hin & Hrow).
    exists row'. split; [now right | exact Hrow].
Qed.

(** X2.  When the file lacks one of the five columns the preparation
    reads, the preparation raises [KeyError] for the first of them it
    lacks, in the order price, bedrooms, bathrooms, latitude,
    longitude. *)
Theorem X2_prepare_data_raises_for_first_missing_column
        (parse_number : string -> option Q) (df : DatasetStore.RawTable) :
  has_required_columns df = false ->
  exists col,
    find (fun c => negb (DatasetStore.has_column df c)) Samples.required_columns
    = Some col
    /\ DatasetStore.prepare_data parse_number df = Raise (KeyError col).
Proof.
  unfold has_required_columns, DatasetStore.prepare_data, DatasetStore.getitem,
         Samples.required_columns.
  simpl find. simpl forallb.
  destruct (DatasetStore.has_column df "price");
    destruct (DatasetStore.has_column df "bedrooms");
    destruct (DatasetStore.has_column df "bathrooms");
    destruct (DatasetStore.has_column df "coordinates/latitude");
    destruct (DatasetStore.has_column df "coordinates/longitude");
    cbv beta iota delta [bind negb andb]; intros H; try discriminate H;
    eexists; split; reflexivity.
Qed.

Lemma X2_prepare_data_raises_for_first_missing_column_witness :
  has_required_columns file_without_bathrooms = false
  /\ exists col,
       find (fun c => negb (DatasetStore.has_column file_without_bathrooms c))
            Samples.required_columns = Some col
       /\ DatasetStore.prepare_data Samples.parse_digits file_without_bathrooms
          = Raise (KeyError col).
Proof.
  split; [reflexivity|].
  apply (X2_prepare_data_raises_for_first_missing_column
           Samples.parse_digits file_without_bathrooms).
  reflexivity.
Defined.

(** X3.  The cleaned dataset consists of exactly the records whose
    price, latitude and longitude are numbers, in the order of the
    file: cleaning the records that do not fail gives the listings of
    [df_clean], one for one. *)
Theorem X3_cleaning_keeps_the_valid_records_in_order
        (parse_number : string -> option Q) (df : DatasetStore.RawTable)
        (rows : list DatasetStore.RawRow) :
  map (DatasetStore.clean_row parse_number df)
      (filter (fun row => negb (fails_cleaning parse_number row)) rows)
  = map Some (DatasetStore.clean_rows parse_number df rows).
Proof.
  induction rows as [|row rows IH]; simpl; [reflexivity|].
  destruct (fails_cleaning parse_number row) eqn:E; simpl.
  - rewrite (clean_row_fails _ df _ E). exact IH.
  - destruct (clean_row_valid _ df _ E) as (l & Hl & _).
    rewrite Hl. simpl. now rewrite IH.
Qed.

(** X4.  Every listing of the cleaned dataset comes from a record of
    the file and carries the numbers read from it: its price, latitude
    and longitude are present, while bedrooms and bathrooms that are
    not numbers are kept as missing values and do not remove the
    record. *)
Theorem X4_kept_listing_carries_the_parsed_cells
        (parse_number : string -> option Q) (df : DatasetStore.RawTable)
        (rows : list DatasetStore.RawRow) (l : Listing) :
  In l (DatasetStore.clean_rows parse_number df rows) ->
  exists row,
    In row rows
    /\ DatasetStore.to_numeric parse_number (DatasetStore.cell "price" row)
       = Some (Col.price l)
    /\ DatasetStore.to_numeric parse_number
         (DatasetStore.cell "coordinates/latitude" row) = Some (Col.latitude l)
    /\ DatasetStore.to_numeric parse_number
         (DatasetStore.cell "coordinates/longitude" row) = Some (Col.longitude l)
    /\ Col.bedrooms l
       = DatasetStore.to_numeric parse_number (DatasetStore.cell "bedrooms" row)
    /\ Col.bathrooms l
       = DatasetStore.to_numeric parse_number (DatasetStore.cell "bathrooms" row).
Proof.
  intros Hin. destruct (clean_rows_In _ _ _ _ Hin) as (row & Hrow & Hclean).
  exists row. split; [exact Hrow|].
  destruct (fails_cleaning parse_number row) eqn:E.
  - rewrite (clean_row_fails _ df _ E) in Hclean. discriminate.
  - destruct (clean_row_valid _ df _ E) as (l' & Hl' & Hfields).
    rewrite Hl' in Hclean. injection Hclean as <-. exact Hfields.
Qed.

Lemma X4_kept_listing_carries_the_parsed_cells_witness :
  exists l,
    In l (DatasetStore.clean_rows Samples.parse_digits small_file
            (DatasetStore.records small_file))
    /\ Col.price l = 2500%Q
    /\ Col.bedrooms l = None
    /\ exists row,
         In row (DatasetStore.records small_file)
         /\ DatasetStore.to_numeric Samples.parse_digits
              (DatasetStore.cell "price" row) = Some (Col.price l).
Proof.
  eexists. split; [right; left; reflexivity|].
  split; [reflexivity|]. split; [reflexivity|].
  destruct (X4_kept_listing_carries_the_parsed_cells
              Samples.parse_digits small_file (DatasetStore.records small_file)
              _ (or_intror (or_introl eq_refl)))
    as (row & Hin & Hprice & _).
  exists row. split; assumption.
Defined.

(** X5.  When the file has a [displayAddress] column, no listing of
    the cleaned dataset lacks an area: the area is the display address,
    and "Unknown" where the address is missing. *)
Theorem X5_area_is_the_address_or_unknown
        (parse_number : string -> option Q) (df : DatasetStore.RawTable)
        (rows : list DatasetStore.RawRow) (l : Listing) :
  DatasetStore.has_column df "displayAddress" = true ->
  In l (DatasetStore.clean_rows parse_number df rows) ->
  Col.area l = Some match Col.displayAddress l with
                    | Some address => address
                    | None => "Unknown"%string
                    end.
Proof.
  intros Hcol Hin.
  destruct (clean_rows_In _ _ _ _ Hin) as (row & _ & Hclean).
  unfold DatasetStore.clean_row in Hclean. rewrite Hcol in Hclean.
  destruct (DatasetStore.to_numeric parse_number (DatasetStore.cell "price" row));
    destruct (DatasetStore.to_numeric parse_number
                (DatasetStore.cell "coordinates/latitude" row));
    destruct (DatasetStore.to_numeric parse_number
                (DatasetStore.cell "coordinates/longitude" row));
    try discriminate.
  injection Hclean as <-. simpl.
  destruct (DatasetStore.cell "displayAddress" row); reflexivity.
Qed.

Lemma X5_area_is_the_address_or_unknown_witness :
  DatasetStore.has_column small_file "displayAddress" = true
  /\ map Col.area (DatasetStore.clean_rows Samples.parse_digits small_file
                     (DatasetStore.records small_file))
     = [Some "Moorgate"%string; Some "Unknown"%string]
  /\ forall l,
       In l (DatasetStore.clean_rows Samples.parse_digits small_file
               (DatasetStore.records small_file)) ->
       Col.area l = Some match Col.displayAddress l with
                         | Some address => address
                         | None => "Unknown"%string
                         end.
Proof.
  split; [reflexivity|]. split; [reflexivity|].
  intros l Hin.
  apply (X5_area_is_the_address_or_unknown
           Samples.parse_digits small_file (DatasetStore.records small_file) l);
    [reflexivity | exact Hin].
Defined.

(** ** The dropdown options *)

Lemma insert_sorted_In (z x : Z) (l : list Z) :
  In x (DatasetStore.insert_sorted z l) <-> x = z \/ In x l.
Proof.
  induction l as [|y l IH]; simpl; [intuition|].
  destruct (z <=? y); simpl; [intuition|].
  rewrite IH. intuition.
Qed.

Lemma sorted_In (x : Z) (l : list Z) :
  In x (DatasetStore.sorted l) <-> In x l.
Proof.
  unfold DatasetStore.sorted.
  induction l as [|y l IH]; simpl; [tauto|].
  rewrite insert_sorted_In, IH. intuition.
Qed.

Lemma insert_sorted_HdRel (a z : Z) (l : list Z) :
  a <= z -> HdRel Z.le a l -> HdRel Z.le a (DatasetStore.insert_sorted z l).
Proof.
  intros Haz Hhd. destruct l as [|y l]; simpl; [now constructor|].
  destruct (z <=? y); constructor; [exact Haz|].
  now inversion Hhd.
Qed.

Lemma insert_sorted_Sorted (z : Z) (l : list Z) :
  Sorted Z.le l -> Sorted Z.le (DatasetStore.insert_sorted z l).
Proof.
  induction l as [|y l IH]; intros Hs; simpl.
  - repeat constructor.
  - destruct (z <=? y) eqn:E.
    + constructor; [exact Hs|]. constructor. now apply Z.leb_le.
    + apply Z.leb_gt in E. inversion Hs as [|? ? Hl Hhd]; subst.
      constructor; [now apply IH|].
      apply insert_sorted_HdRel; [lia | exact Hhd].
Qed.

Lemma insert_sorted_NoDup (z : Z) (l : list Z) :
  ~ In z l -> NoDup l -> NoDup (DatasetStore.insert_sorted z l).
Proof.
  induction l as [|y l IH]; intros Hz Hnd; simpl.
  - constructor; [tauto | constructor].
  - destruct (z <=? y); [now constructor|].
    inversion Hnd as [|? ? Hy Hl]; subst.
    constructor.
    + rewrite insert_sorted_In. simpl in Hz. intuition.
    + apply IH; [simpl in Hz; tauto | exact Hl].
Qed.

Lemma sorted_NoDup (l : list Z) : NoDup l -> NoDup (DatasetStore.sorted l).
Proof.
  unfold DatasetStore.sorted.
  induction l as [|y l IH]; intros Hnd; simpl; [constructor|].
  inversion Hnd as [|? ? Hy Hl]; subst.
  apply insert_sorted_NoDup; [|now apply IH].
  intros Hin. apply Hy. now apply (sorted_In y l).
Qed.

Lemma dropna_values_In (q : Q) (column : list (option Q)) :
  In q (DatasetStore.dropna_values column) <-> In (Some q) column.
Proof.
  induction column as [|[x|] column IH]; simpl; [tauto| |].
  - rewrite IH. split; intros [H|H]; auto; left; congruence.
  - rewrite IH. split; [auto|]. intros [H|H]; [discriminate|exact H].
Qed.

Lemma unique_In (x : Q) (l : list Q) : In x (DatasetStore.unique l) -> In x l.
Proof.
  revert x. induction l as [|y l IH]; simpl; [tauto|].
  intros x [H|H]; [now left|].
  right. apply IH. apply filter_In in H. tauto.
Qed.

Lemma unique_covers (x : Q) (l : list Q) :
  In x l -> exists y, In y (DatasetStore.unique l) /\ Qeq y x.
Proof.
  induction l as [|a l IH]; simpl; [tauto|].
  intros [<- | H].
  - exists a. split; [now left | reflexivity].
  - destruct (IH H) as (y & Hy & Hyx).
    destruct (Qeq_bool y a) eqn:E.
    + exists a. split; [now left|].
      apply Qeq_bool_iff in E. rewrite <- E. exact Hyx.
    + exists y. split; [|exact Hyx].
      right. apply filter_In. split; [exact Hy|]. now rewrite E.
Qed.

Lemma Qfloor_nonneg (x : Q) : (0 <= x)%Q -> 0 <= Qfloor x.
Proof.
  intros H. change 0 with (Qfloor 0). now apply Qfloor_resp_le.
Qed.

(** X6.  The options offered by a dropdown are in ascending order and
    none of them is negative. *)
Theorem X6_options_are_sorted_and_nonnegative (column : list (option Q)) :
  Sorted Z.le (DatasetStore.options_of column)
  /\ Forall (fun z => 0 <= z) (DatasetStore.options_of column).
Proof.
  unfold DatasetStore.options_of. split.
  - unfold DatasetStore.sorted.
    induction (map Qfloor _) as [|z l IH]; simpl; [constructor|].
    now apply insert_sorted_Sorted.
  - apply Forall_forall. intros z Hz.
    apply -> sorted_In in Hz. apply in_map_iff in Hz as (x & <- & Hx).
    apply filter_In in Hx as [_ Hx]. apply Qle_bool_iff in Hx.
    now apply Qfloor_nonneg.
Qed.

(** X7.  A number is offered as an option exactly when it is the
    integer part of a non-negative value of the column; missing values
    and negative values give no option. *)
Theorem X7_options_are_the_integer_parts_of_the_nonnegative_values
        (column : list (option Q)) (z : Z) :
  In z (DatasetStore.options_of column)
  <-> exists q, In (Some q) column /\ (0 <= q)%Q /\ Qfloor q = z.
Proof.
  unfold DatasetStore.options_of. rewrite sorted_In, in_map_iff. split.
  - intros (x & Hz & Hx). apply filter_In in Hx as [Hx Hpos].
    exists x. split; [|split; [now apply Qle_bool_iff | exact Hz]].
    apply dropna_values_In. now apply unique_In.
  - intros (q & Hq & Hpos & Hz).
    apply dropna_values_In in Hq.
    destruct (unique_covers _ _ Hq) as (y & Hy & Hyq).
    exists y. split; [rewrite Hyq; exact Hz|].
    apply filter_In. split; [exact Hy|].
    apply Qle_bool_iff. rewrite Hyq. exact Hpos.
Qed.

Lemma integral_floor_injective (x y : Q) :
  integral x -> integral y -> Qfloor x = Qfloor y -> Qeq x y.
Proof.
  unfold integral. intros Hx Hy E. rewrite Hx, Hy, E. reflexivity.
Qed.

Lemma unique_floors_NoDup (l : list Q) :
  (forall q, In q l -> integral q) ->
  forall g, NoDup (map Qfloor (filter g (DatasetStore.unique l))).
Proof.
  induction l as [|x l IH]; intros Hint g; simpl; [constructor|].
  assert (Hl : forall q, In q l -> integral q)
    by (intros q Hq; apply Hint; now right).
  rewrite filter_twice.
  destruct (g x); simpl; [|now apply IH].
  constructor; [|now apply IH].
  intros Hin. apply in_map_iff in Hin as (y & Hfl & Hy).
  apply filter_In in Hy as [Hy Hneq].
  apply andb_true_iff in Hneq as [Hneq _].
  assert (Heq : Qeq y x).
  { apply integral_floor_injective; [| |exact Hfl].
    - apply Hl. now apply unique_In.
    - apply Hint. now left. }
  apply Qeq_bool_iff in Heq. rewrite Heq in Hneq. discriminate.
Qed.

(** X8.  When every value of the column is a whole number, as room
    counts are, no option is offered twice. *)
Theorem X8_whole_numbers_give_distinct_options (column : list (option Q)) :
  (forall q, In (Some q) column -> integral q) ->
  NoDup (DatasetStore.options_of column).
Proof.
  intros Hint. unfold DatasetStore.options_of.
  apply sorted_NoDup. apply unique_floors_NoDup.
  intros q Hq. apply Hint. now apply dropna_values_In.
Qed.

Lemma X8_whole_numbers_give_distinct_options_witness :
  DatasetStore.options_of [Some 2%Q; None; Some 1%Q; Some (4 # 2)%Q] = [1; 2]
  /\ NoDup (DatasetStore.options_of [Some 2%Q; None; Some 1%Q; Some (4 # 2)%Q]).
Proof.
  split; [reflexivity|].
  apply (X8_whole_numbers_give_distinct_options
           [Some 2%Q; None; Some 1%Q; Some (4 # 2)%Q]).
  intros q [H|[H|[H|[H|[]]]]]; try discriminate H;
    injection H as <-; reflexivity.
Defined.

(** ** The stored page *)

Lemma update_page_at_least_1 (triggered : list input_id) (current_page : Z) :
  1 <= current_page -> 1 <= update_page triggered current_page.
Proof.
  intros Hp. destruct triggered as [|i rest]; [simpl; lia|].
  destruct i; simpl; lia.
Qed.

(** X9.  Whatever the events of a session are, the page kept in the
    store is never below 1. *)
Theorem X9_stored_page_is_never_below_1 (events : list (list input_id)) :
  1 <= Session.run events Session.initial_page.
Proof.
  unfold Session.initial_page.
  assert (H : forall p, 1 <= p -> 1 <= Session.run events p).
  { induction events as [|triggered later IH]; intros p Hp; simpl; [exact Hp|].
    apply IH. now apply update_page_at_least_1. }
  apply H. lia.
Qed.

(** X10.  From a stored page of at least 1, "next" followed by
    "previous" returns to the same stored page; "previous" followed by
    "next" does so exactly from page 2 on: from page 1 it ends on
    page 2. *)
Theorem X10_next_and_previous_undo_each_other
        (rest rest' : list input_id) (current_page : Z) :
  1 <= current_page ->
  update_page (id_prev_page_btn :: rest)
              (update_page (id_next_page_btn :: rest') current_page)
  = current_page
  /\ (update_page (id_next_page_btn :: rest')
                  (update_page (id_prev_page_btn :: rest) current_page)
      = current_page
      <-> 2 <= current_page).
Proof.
  intros Hp.
  rewrite ?update_page_next, ?update_page_prev, ?update_page_next.
  split; [lia|]. split; lia.
Qed.

Lemma X10_next_and_previous_undo_each_other_witness :
  update_page [id_prev_page_btn] (update_page [id_next_page_btn] 1) = 1
  /\ update_page [id_next_page_btn] (update_page [id_prev_page_btn] 1) = 2.
Proof.
  split; [|reflexivity].
  apply (X10_next_and_previous_undo_each_other [] [] 1). lia.
Defined.

(** ** The stored page and the reported page *)

(** X11.  [update_page] does not clamp the stored page from above.
    When the stored page lies beyond the last page, the view reports
    the last page, and after a "previous" event it still reports the
    last page: the step back only shows once the stored page has come
    down to the page count. *)
Theorem X11_previous_from_beyond_the_last_page_shows_no_change
        ops df bedrooms bathrooms price_range distance_data max_distance
        table_toggle rest stored_page v v' :
  update_dashboard ops df bedrooms bathrooms price_range distance_data
                   max_distance table_toggle stored_page = Ok v ->
  update_dashboard ops df bedrooms bathrooms price_range distance_data
                   max_distance table_toggle
                   (update_page (id_prev_page_btn :: rest) stored_page)
  = Ok v' ->
  View.total_pages v < stored_page ->
  View.current_page v = View.total_pages v
  /\ View.current_page v' = View.total_pages v.
Proof.
  intros E E' Hbeyond.
  destruct (update_dashboard_returns _ _ _ _ _ _ _ _ _ _ E)
    as (_ & _ & _ & _ & _ & _ & Hti & Htp & Hcp & _).
  destruct (update_dashboard_returns _ _ _ _ _ _ _ _ _ _ E')
    as (_ & _ & _ & _ & _ & _ & Hti' & Htp' & Hcp' & _).
  assert (Hsame : View.total_pages v' = View.total_pages v)
    by (rewrite Htp', Htp, Hti', Hti; reflexivity).
  assert (Hpos : 1 <= View.total_pages v)
    by (rewrite Htp; apply pages_of_pos).
  rewrite Hcp, Hcp', Hsame, update_page_prev.
  unfold clamp.
  destruct (stored_page <? 1) eqn:E1;
    destruct (View.total_pages v <? stored_page) eqn:E2;
    destruct (Z.max 1 (stored_page - 1) <? 1) eqn:E3;
    destruct (View.total_pages v <? Z.max 1 (stored_page - 1)) eqn:E4;
    rewrite ?Z.ltb_lt, ?Z.ltb_ge in *; lia.
Qed.

Lemma X11_previous_from_beyond_the_last_page_shows_no_change_witness :
  exists v v',
    update_dashboard exact_ops Samples.twenty_five_flats sel_all sel_all
                     (0%Q, 10000%Q) None None show_filtered 5 = Ok v
    /\ update_dashboard exact_ops Samples.twenty_five_flats sel_all sel_all
                        (0%Q, 10000%Q) None None show_filtered
                        (update_page [id_prev_page_btn] 5) = Ok v'
    /\ View.total_pages v = 3
    /\ View.current_page v = 3
    /\ View.current_page v' = 3.
Proof.
  destruct (update_dashboard exact_ops Samples.twenty_five_flats sel_all sel_all
              (0%Q, 10000%Q) None None show_filtered 5)
    as [v|e] eqn:E; [|vm_compute in E; discriminate E].
  destruct (update_dashboard exact_ops Samples.twenty_five_flats sel_all sel_all
              (0%Q, 10000%Q) None None show_filtered
              (update_page [id_prev_page_btn] 5))
    as [v'|e] eqn:E'; [|vm_compute in E'; discriminate E'].
  exists v, v'. split; [reflexivity|]. split; [reflexivity|].
  assert (Htp : View.total_pages v = 3).
  { vm_compute in E. injection E as <-. reflexivity. }
  split; [exact Htp|].
  rewrite <- Htp.
  apply (X11_previous_from_beyond_the_last_page_shows_no_change
           exact_ops Samples.twenty_five_flats sel_all sel_all (0%Q, 10000%Q)
           None None show_filtered [] 5 v v' E E').
  rewrite Htp. lia.
Defined.



(** ** The filter chain for every value of the criteria *)

Lemma filter_all_false {A : Type} (p : A -> bool) (l : list A) :
  (forall x, p x = false) -> filter p l = [].
Proof.
  intros Hp. induction l as [|x l IH]; simpl; [reflexivity|].
  now rewrite Hp.
Qed.

Lemma apply_filters_keeps
      rows bedrooms bathrooms price_range distance_data max_distance :
  apply_filters rows bedrooms bathrooms price_range distance_data max_distance
  = filter (keeps bedrooms bathrooms price_range distance_data max_distance) rows.
Proof.
  unfold apply_filters.
  assert (Hrooms : forall (col : Row -> option Q) sel l,
             (if negb (is_all sel)
              then filter (fun r => eq_selected (col r) sel) l else l)
             = filter (fun r => is_all sel || eq_selected (col r) sel) l).
  { intros col sel l. destruct (is_all sel); simpl; [|reflexivity].
    symmetry. apply filter_all_true. apply forallb_forall. reflexivity. }
  rewrite (Hrooms (fun r => Col.bedrooms (listing r))).
  rewrite (Hrooms (fun r => Col.bathrooms (listing r))).
  assert (Hdist : forall l,
             match distance_data, max_distance with
             | Some _, Some m =>
                 if truthy_num m
                 then filter (fun r => Qle_bool (distance_km r) m) l else l
             | _, _ => l
             end
             = filter (fun r =>
                         match distance_data, max_distance with
                         | Some _, Some m =>
                             negb (truthy_num m) || Qle_bool (distance_km r) m
                         | _, _ => true
                         end) l).
  { intros l.
    destruct distance_data as [dd|], max_distance as [m|];
      try (symmetry; apply filter_all_true; apply forallb_forall; reflexivity).
    destruct (truthy_num m); simpl; [reflexivity|].
    symmetry. apply filter_all_true. apply forallb_forall. reflexivity. }
  rewrite Hdist, !filter_twice.
  apply filter_ext. intros r. unfold keeps. now rewrite !andb_assoc.
Qed.

(** X13.  The filtered count of a view never exceeds its total
    count. *)
Theorem X13_filtered_count_at_most_total_count
        ops df bedrooms bathrooms price_range distance_data max_distance
        table_toggle current_page v :
  update_dashboard ops df bedrooms bathrooms price_range distance_data
                   max_distance table_toggle current_page = Ok v ->
  (View.filtered_count v <= View.total_count v)%nat.
Proof.
  intros E.
  destruct (update_dashboard_returns _ _ _ _ _ _ _ _ _ _ E)
    as (U & _ & Htc & Hco & _).
  rewrite Hco, Htc, apply_filters_keeps.
  rewrite <- (decorate_length_usable df distance_data U).
  apply filter_length_le.
Qed.

Lemma X13_filtered_count_at_most_total_count_witness :
  exists v,
    update_dashboard exact_ops Samples.two_flats sel_all sel_all
                     (2000%Q, 4000%Q) None None show_filtered 1 = Ok v
    /\ (View.filtered_count v <= View.total_count v)%nat.
Proof.
  eexists. split; [vm_compute; reflexivity|].
  apply (X13_filtered_count_at_most_total_count
           exact_ops Samples.two_flats sel_all sel_all (2000%Q, 4000%Q)
           None None show_filtered 1).
  vm_compute. reflexivity.
Defined.

(** X14.  For every value of the criteria, a max distance of 0
    included, the four filter steps amount to one pass over the frame
    with a single row test: the result keeps the rows in their order,
    and a row is in it exactly when it is in the frame and passes the
    test. *)
Theorem X14_filter_steps_are_one_pass
        rows bedrooms bathrooms price_range distance_data max_distance :
  apply_filters rows bedrooms bathrooms price_range distance_data max_distance
  = filter (keeps bedrooms bathrooms price_range distance_data max_distance) rows
  /\ forall r,
       In r (apply_filters rows bedrooms bathrooms price_range
                           distance_data max_distance)
       <-> In r rows
           /\ keeps bedrooms bathrooms price_range distance_data
                    max_distance r = true.
Proof.
  split; [apply apply_filters_keeps|].
  intros r. rewrite apply_filters_keeps. apply filter_In.
Qed.

(** X15.  Filtering is idempotent: applying the same criteria to an
    already filtered frame changes nothing. *)
Theorem X15_filtering_twice_is_filtering_once
        rows bedrooms bathrooms price_range distance_data max_distance :
  apply_filters
    (apply_filters rows bedrooms bathrooms price_range distance_data max_distance)
    bedrooms bathrooms price_range distance_data max_distance
  = apply_filters rows bedrooms bathrooms price_range distance_data max_distance.
Proof.
  rewrite !apply_filters_keeps, filter_twice.
  apply filter_ext. intros r. apply andb_diag.
Qed.

(** X16.  A cleared dropdown (the value [None]) matches no listing:
    the filtered frame is empty, the count is 0 and both averages are
    "N/A", whatever the other criteria are. *)
Theorem X16_cleared_dropdown_matches_nothing
        ops df bedrooms bathrooms price_range distance_data max_distance
        table_toggle current_page :
  store_usable df distance_data = true ->
  bedrooms = sel_none \/ bathrooms = sel_none ->
  exists v,
    update_dashboard ops df bedrooms bathrooms price_range distance_data
                     max_distance table_toggle current_page = Ok v
    /\ View.filtered_count v = 0%nat
    /\ View.avg_price v = "N/A"%string
    /\ View.avg_dist v = "N/A"%string.
Proof.
  intros U Hsel.
  assert (Hempty : apply_filters (decorate df distance_data) bedrooms bathrooms
                                 price_range distance_data max_distance = []).
  { rewrite apply_filters_keeps. apply filter_all_false. intros r.
    unfold keeps.
    destruct Hsel as [-> | ->]; simpl;
      repeat match goal with
             | |- context [eq_selected ?c sel_none] => destruct c; simpl
             end;
      rewrite ?andb_false_r; reflexivity. }
  destruct (update_dashboard_runs ops df bedrooms bathrooms price_range
              distance_data max_distance table_toggle current_page U)
    as (v & E & _ & Hco & Hpr & Hdi & _).
  { rewrite Hempty. apply main_map_of_empty. }
  rewrite Hempty in Hco, Hpr, Hdi.
  exists v. repeat split; assumption.
Qed.

Lemma X16_cleared_dropdown_matches_nothing_witness :
  store_usable Samples.two_flats None = true
  /\ exists v,
       update_dashboard exact_ops Samples.two_flats sel_none sel_all
                        (0%Q, 10000%Q) None None show_filtered 1 = Ok v
       /\ View.filtered_count v = 0%nat.
Proof.
  split; [reflexivity|].
  destruct (X16_cleared_dropdown_matches_nothing
              exact_ops Samples.two_flats sel_none sel_all (0%Q, 10000%Q)
              None None show_filtered 1 eq_refl (or_introl eq_refl))
    as (v & E & Hco & _).
  exists v. split; assumption.
Defined.

(** ** Pages *)

Lemma page_window_nonempty (n page : Z) :
  0 < n -> 1 <= page <= pages_of n -> (page - 1) * 10 < n.
Proof.
  intros Hn [H1 H2]. rewrite <- total_pages_pages_of in H2.
  unfold items_per_page in H2.
  revert H2. Z.div_mod_to_equations. lia.
Qed.

Lemma pages_cover (n : Z) : 0 <= n -> n <= 10 * pages_of n.
Proof.
  intros Hn. rewrite <- total_pages_pages_of. unfold items_per_page.
  Z.div_mod_to_equations. lia.
Qed.

Lemma firstn_incl {A : Type} (k : nat) (l : list A) (x : A) :
  In x (firstn k l) -> In x l.
Proof.
  revert l. induction k as [|k IH]; intros [|y l]; simpl; try tauto.
  intros [H|H]; [now left | right; now apply IH].
Qed.

Lemma skipn_incl {A : Type} (k : nat) (l : list A) (x : A) :
  In x (skipn k l) -> In x l.
Proof.
  revert l. induction k as [|k IH]; intros [|y l]; simpl; try tauto.
  intros H. right. now apply IH.
Qed.

Lemma slice_incl {A : Type} (l : list A) (start stop : Z) (x : A) :
  In x (slice l start stop) -> In x l.
Proof.
  unfold slice. intros H. apply firstn_incl in H. now apply skipn_incl in H.
Qed.

Lemma firstn_min_length {A : Type} (k : nat) (l : list A) :
  firstn (Nat.min k (length l)) l = firstn k l.
Proof.
  destruct (Nat.le_ge_cases k (length l)) as [H|H].
  - now rewrite Nat.min_l.
  - rewrite Nat.min_r by exact H. now rewrite !firstn_all2 by lia.
Qed.

Lemma chunks_concat {A : Type} (m : nat) :
  forall l : list A, (length l <= 10 * m)%nat ->
  concat (map (fun k => firstn 10 (skipn (10 * k) l)) (seq 0 m)) = l.
Proof.
  induction m as [|m IH]; intros l Hlen.
  - destruct l; [reflexivity | simpl in Hlen; lia].
  - change (seq 0 (S m)) with (0%nat :: seq 1 m).
    rewrite <- seq_shift, map_cons, map_map. cbn [concat].
    rewrite Nat.mul_0_r. cbn [skipn].
    transitivity (firstn 10 l ++ skipn 10 l); [|apply firstn_skipn].
    f_equal.
    transitivity
      (concat (map (fun k => firstn 10 (skipn (10 * k) (skipn 10 l))) (seq 0 m)));
      [|apply IH; rewrite length_skipn; lia].
    f_equal. apply map_ext. intros k.
    rewrite skipn_skipn. do 2 f_equal. lia.
Qed.

(** X17.  A page never holds more than 10 records, and it holds at
    least one whenever the paged frame is not empty: no stored page,
    however far out of range, produces an empty table over a non-empty
    frame. *)
Theorem X17_page_holds_between_1_and_10_records
        ops df bedrooms bathrooms price_range distance_data max_distance
        table_toggle current_page v :
  update_dashboard ops df bedrooms bathrooms price_range distance_data
                   max_distance table_toggle current_page = Ok v ->
  (length (View.table_data v) <= 10)%nat
  /\ (0 < View.total_items v -> View.table_data v <> []).
Proof.
  intros E.
  destruct (update_dashboard_returns _ _ _ _ _ _ _ _ _ _ E)
    as (_ & _ & _ & _ & _ & _ & Hti & Htp & Hcp & Hst & Hen & Htd & _).
  assert (Hpos : 1 <= View.total_pages v)
    by (rewrite Htp; apply pages_of_pos).
  assert (Hrange : 1 <= View.current_page v <= View.total_pages v)
    by (rewrite Hcp; apply clamp_range; exact Hpos).
  assert (Hn : 0 <= View.total_items v) by (rewrite Hti; lia).
  assert (Hwin : 0 <= View.start_idx v <= View.end_idx v).
  { rewrite Hen, Hst. apply page_window_in_frame; [exact Hn|].
    rewrite <- Htp. exact Hrange. }
  assert (Hlen : Z.of_nat (length (View.table_data v))
                 = View.end_idx v - View.start_idx v).
  { rewrite Htd. apply slice_in_range_length; [exact Hwin|].
    rewrite Hen, Hti. lia. }
  split; [lia|].
  intros Hsome Hnil. rewrite Hnil in Hlen. simpl in Hlen.
  assert (Hlt : (View.current_page v - 1) * 10 < View.total_items v).
  { apply page_window_nonempty; [exact Hsome|]. rewrite <- Htp. exact Hrange. }
  lia.
Qed.

Lemma X17_page_holds_between_1_and_10_records_witness :
  exists v,
    update_dashboard exact_ops Samples.twenty_five_flats sel_all sel_all
                     (0%Q, 10000%Q) None None show_filtered 99 = Ok v
    /\ length (View.table_data v) = 5%nat
    /\ (length (View.table_data v) <= 10)%nat.
Proof.
  eexists. split; [vm_compute; reflexivity|]. split; [reflexivity|].
  apply (X17_page_holds_between_1_and_10_records
           exact_ops Samples.twenty_five_flats sel_all sel_all (0%Q, 10000%Q)
           None None show_filtered 99).
  vm_compute. reflexivity.
Defined.

Lemma page_records
      ops df bedrooms bathrooms price_range distance_data max_distance
      table_toggle (k : nat) v :
  let T := paged_frame ops df (apply_filters (decorate df distance_data) bedrooms
                                 bathrooms price_range distance_data max_distance)
                       distance_data table_toggle in
  update_dashboard ops df bedrooms bathrooms price_range distance_data
                   max_distance table_toggle (Z.of_nat (S k)) = Ok v ->
  (k < Z.to_nat (pages_of (Z.of_nat (length T))))%nat ->
  View.table_data v = firstn 10 (skipn (10 * k) T).
Proof.
  intros T E Hk.
  destruct (update_dashboard_returns _ _ _ _ _ _ _ _ _ _ E)
    as (_ & _ & _ & _ & _ & _ & Hti & Htp & Hcp & Hst & Hen & Htd & _).
  fold T in Hti, Htd. rewrite Htd.
  assert (Hcp' : View.current_page v = Z.of_nat (S k)).
  { rewrite Hcp, Htp, Hti. unfold clamp.
    destruct (Z.of_nat (S k) <? 1) eqn:E1; [apply Z.ltb_lt in E1; lia|].
    destruct (pages_of (Z.of_nat (length T)) <? Z.of_nat (S k)) eqn:E2;
      [apply Z.ltb_lt in E2; lia | reflexivity]. }
  assert (Hst' : View.start_idx v = Z.of_nat (10 * k)) by (rewrite Hst, Hcp'; lia).
  rewrite Hen, Hst', Hti.
  assert (Hwin : 0 <= (Z.of_nat (S k) - 1) * 10
                 <= Z.min ((Z.of_nat (S k) - 1) * 10 + 10) (Z.of_nat (length T))).
  { apply page_window_in_frame; [lia|].
    pose proof (pages_of_pos (Z.of_nat (length T))). lia. }
  rewrite slice_in_range by lia.
  rewrite Nat2Z.id.
  rewrite <- (firstn_min_length 10 (skipn (10 * k) T)).
  f_equal. rewrite length_skipn. lia.
Qed.

Lemma Forall2_map_eq {A B C : Type} (R : A -> B -> Prop)
      (f : B -> C) (g : A -> C) (l : list A) (l' : list B) :
  Forall2 R l l' ->
  (forall a b, In a l -> R a b -> f b = g a) ->
  map f l' = map g l.
Proof.
  induction 1 as [|a b l l' Hab Hrest IH]; intros Hfg; simpl; [reflexivity|].
  f_equal; [apply Hfg; [now left | exact Hab]|].
  apply IH. intros a' b' Hin. apply Hfg. now right.
Qed.

(** X18.  The pages partition the paged frame: when [views] are the
    views the callback returns for the pages 1 to [total_pages], the
    records of their tables, one page after the other, are the records
    of the frame, each once and in order. *)
Theorem X18_pages_partition_the_frame
        ops df bedrooms bathrooms price_range distance_data max_distance
        table_toggle (views : list View.ViewModel) :
  let T := paged_frame ops df (apply_filters (decorate df distance_data) bedrooms
                                 bathrooms price_range distance_data max_distance)
                       distance_data table_toggle in
  Forall2 (fun page v =>
             update_dashboard ops df bedrooms bathrooms price_range
                              distance_data max_distance table_toggle
                              (Z.of_nat page) = Ok v)
          (seq 1 (Z.to_nat (pages_of (Z.of_nat (length T))))) views ->
  concat (map View.table_data views) = T.
Proof.
  intros T Hviews.
  rewrite (Forall2_map_eq _ View.table_data
             (fun page => firstn 10 (skipn (10 * (page - 1)) T)) _ _ Hviews).
  - rewrite <- seq_shift, map_map.
    rewrite (map_ext _ (fun k => firstn 10 (skipn (10 * k) T))).
    + apply chunks_concat.
      pose proof (pages_cover (Z.of_nat (length T)) ltac:(lia)) as Hc.
      pose proof (pages_of_pos (Z.of_nat (length T))) as Hp. lia.
    + intros k. do 3 f_equal. lia.
  - intros page v Hin E. apply in_seq in Hin.
    destruct page as [|k]; [lia|].
    replace (S k - 1)%nat with k by lia.
    apply (page_records ops df bedrooms bathrooms price_range distance_data
                        max_distance table_toggle k v E).
    subst T. lia.
Qed.

Lemma X18_pages_partition_the_frame_witness :
  exists v1 v2 v3,
    Forall2 (fun page v =>
               update_dashboard exact_ops Samples.twenty_five_flats sel_all
                                sel_all (0%Q, 10000%Q) None None show_filtered
                                (Z.of_nat page) = Ok v)
            [1; 2; 3]%nat [v1; v2; v3]
    /\ map (fun v => length (View.table_data v)) [v1; v2; v3] = [10; 10; 5]%nat
    /\ concat (map View.table_data [v1; v2; v3])
       = paged_frame exact_ops Samples.twenty_five_flats
                     (apply_filters (decorate Samples.twenty_five_flats None)
                                    sel_all sel_all (0%Q, 10000%Q) None None)
                     None show_filtered.
Proof.
  destruct (update_dashboard exact_ops Samples.twenty_five_flats sel_all sel_all
              (0%Q, 10000%Q) None None show_filtered (Z.of_nat 1))
    as [v1|e] eqn:E1; [|vm_compute in E1; discriminate E1].
  destruct (update_dashboard exact_ops Samples.twenty_five_flats sel_all sel_all
              (0%Q, 10000%Q) None None show_filtered (Z.of_nat 2))
    as [v2|e] eqn:E2; [|vm_compute in E2; discriminate E2].
  destruct (update_dashboard exact_ops Samples.twenty_five_flats sel_all sel_all
              (0%Q, 10000%Q) None None show_filtered (Z.of_nat 3))
    as [v3|e] eqn:E3; [|vm_compute in E3; discriminate E3].
  exists v1, v2, v3.
  assert (Hviews :
            Forall2 (fun page v =>
                       update_dashboard exact_ops Samples.twenty_five_flats
                                        sel_all sel_all (0%Q, 10000%Q) None None
                                        show_filtered (Z.of_nat page) = Ok v)
                    [1; 2; 3]%nat [v1; v2; v3])
    by (repeat constructor; assumption).
  split; [exact Hviews|]. split.
  - vm_compute in E1, E2, E3.
    injection E1 as <-. injection E2 as <-. injection E3 as <-. reflexivity.
  - exact (X18_pages_partition_the_frame
             exact_ops Samples.twenty_five_flats sel_all sel_all (0%Q, 10000%Q)
             None None show_filtered [v1; v2; v3] Hviews).
Defined.

(** ** The table without an applied distance *)

(** X19.  With no distance query applied, the two display modes show
    the distance differently: in the views the callback returns, the
    records of the table have no distance cell in mode "all", and in
    mode "filtered" every record has the rounded distance 0. *)
Theorem X19_distance_cell_without_applied_distance
        ops df bedrooms bathrooms price_range max_distance current_page
        v_all v_filtered :
  update_dashboard ops df bedrooms bathrooms price_range None max_distance
                   show_all current_page = Ok v_all ->
  update_dashboard ops df bedrooms bathrooms price_range None max_distance
                   show_filtered current_page = Ok v_filtered ->
  Forall (fun t => View.distance_km t = None) (View.table_data v_all)
  /\ Forall (fun t => View.distance_km t = Some (series_round3 ops 0))
            (View.table_data v_filtered).
Proof.
  intros Ea Ef.
  destruct (update_dashboard_returns _ _ _ _ _ _ _ _ _ _ Ea)
    as (_ & _ & _ & _ & _ & _ & _ & _ & _ & _ & _ & Atd & _).
  destruct (update_dashboard_returns _ _ _ _ _ _ _ _ _ _ Ef)
    as (_ & _ & _ & _ & _ & _ & _ & _ & _ & _ & _ & Ftd & _).
  split.
  - apply Forall_forall. intros t Ht. rewrite Atd in Ht.
    apply slice_incl in Ht. unfold paged_frame, has_distances in Ht.
    simpl in Ht. rewrite map_map in Ht.
    apply in_map_iff in Ht as (l & <- & _). reflexivity.
  - apply Forall_forall. intros t Ht. rewrite Ftd in Ht.
    apply slice_incl in Ht. unfold paged_frame in Ht.
    rewrite map_map in Ht. apply in_map_iff in Ht as (r & <- & Hr).
    rewrite apply_filters_keeps in Hr. apply filter_In in Hr as [Hr _].
    unfold decorate in Hr. apply in_map_iff in Hr as (l & <- & _).
    reflexivity.
Qed.

Lemma X19_distance_cell_without_applied_distance_witness :
  exists v_all v_filtered,
    update_dashboard exact_ops Samples.two_flats sel_all sel_all
                     (0%Q, 10000%Q) None None show_all 1 = Ok v_all
    /\ update_dashboard exact_ops Samples.two_flats sel_all sel_all
                        (0%Q, 10000%Q) None None show_filtered 1 = Ok v_filtered
    /\ map View.distance_km (View.table_data v_all) = [None; None]
    /\ Forall (fun t => View.distance_km t = None) (View.table_data v_all)
    /\ Forall (fun t => View.distance_km t = Some (series_round3 exact_ops 0))
              (View.table_data v_filtered).
Proof.
  destruct (update_dashboard exact_ops Samples.two_flats sel_all sel_all
              (0%Q, 10000%Q) None None show_all 1)
    as [va|e] eqn:Ea; [|vm_compute in Ea; discriminate Ea].
  destruct (update_dashboard exact_ops Samples.two_flats sel_all sel_all
              (0%Q, 10000%Q) None None show_filtered 1)
    as [vf|e] eqn:Ef; [|vm_compute in Ef; discriminate Ef].
  exists va, vf. split; [reflexivity|]. split; [reflexivity|]. split.
  - vm_compute in Ea. injection Ea as <-. reflexivity.
  - exact (X19_distance_cell_without_applied_distance
             exact_ops Samples.two_flats sel_all sel_all (0%Q, 10000%Q)
             None 1 va vf Ea Ef).
Defined.

(** X20.  Over an empty paged frame the view is page 1 of 1 with an
    empty table and both navigation buttons disabled, and the page
    line reads "Showing 1-0 of 0 properties". *)
Theorem X20_view_of_an_empty_frame
        ops df bedrooms bathrooms price_range distance_data max_distance
        table_toggle current_page v :
  update_dashboard ops df bedrooms bathrooms price_range distance_data
                   max_distance table_toggle current_page = Ok v ->
  View.total_items v = 0 ->
  View.table_data v = []
  /\ View.current_page v = 1
  /\ View.total_pages v = 1
  /\ View.prev_disabled v = true
  /\ View.next_disabled v = true
  /\ View.page_info_text v
     = "Page 1 of 1 (Showing 1-0 of 0 properties)"%string.
Proof.
  intros E Hzero.
  destruct (update_dashboard_returns _ _ _ _ _ _ _ _ _ _ E)
    as (_ & _ & _ & _ & _ & _ & Hti & Htp & Hcp & Hst & Hen & Htd & Hpv & Hnx & Htxt).
  assert (Htp1 : View.total_pages v = 1) by (rewrite Htp, Hzero; reflexivity).
  assert (Hcp1 : View.current_page v = 1).
  { pose proof (clamp_range current_page 1 ltac:(lia)) as Hr.
    rewrite Hcp, Htp1. lia. }
  assert (Hst0 : View.start_idx v = 0) by (rewrite Hst, Hcp1; reflexivity).
  assert (Hen0 : View.end_idx v = 0) by (rewrite Hen, Hst0, Hzero; reflexivity).
  repeat split.
  - rewrite Htd, Hst0, Hen0.
    rewrite Hzero in Hti.
    destruct (paged_frame ops df _ distance_data table_toggle);
      [reflexivity | simpl in Hti; lia].
  - exact Hcp1.
  - exact Htp1.
  - rewrite Hpv, Hcp1. reflexivity.
  - rewrite Hnx, Hcp1, Htp1. reflexivity.
  - rewrite Htxt, Hcp1, Htp1, Hst0, Hen0, Hzero. reflexivity.
Qed.

Lemma X20_view_of_an_empty_frame_witness :
  exists v,
    update_dashboard exact_ops Samples.two_flats sel_all sel_all (0%Q, 1000%Q)
                     None None show_filtered 4 = Ok v
    /\ View.total_items v = 0
    /\ View.page_info_text v
       = "Page 1 of 1 (Showing 1-0 of 0 properties)"%string.
Proof.
  eexists. split; [vm_compute; reflexivity|]. split; [reflexivity|].
  apply (X20_view_of_an_empty_frame
           exact_ops Samples.two_flats sel_all sel_all (0%Q, 1000%Q)
           None None show_filtered 4);
    vm_compute; reflexivity.
Defined.

(** ** The table: links and columns *)

(** X21.  The [url] cell becomes a markdown link exactly when the cell
    holds a text whose stripped form starts with "http://" or
    "https://", and the target of the link is that stripped text; a
    missing or empty cell shows a dash, and every other text shows
    "Invalid": no other kind of address is ever turned into a link. *)
Theorem X21_links_only_for_http_addresses
        (strip : string -> string) (url : option string) :
  (String.prefix "[" (Table.render_url strip url) = true
   <-> exists raw,
         url = Some raw /\ raw <> EmptyString
         /\ starts_with_http (strip raw) = true)
  /\ (forall raw,
        url = Some raw -> raw <> EmptyString ->
        starts_with_http (strip raw) = true ->
        Table.render_url strip url
        = ("[🏠 View Listing](" ++ strip raw ++ ")")%string)
  /\ (forall raw,
        url = Some raw -> raw <> EmptyString ->
        starts_with_http (strip raw) = false ->
        Table.render_url strip url = "❌ Invalid"%string)
  /\ (url = None \/ url = Some EmptyString ->
      Table.render_url strip url = "—"%string).
Proof.
  assert (Hempty : starts_with_http EmptyString = false) by reflexivity.
  unfold Table.render_url.
  destruct url as [[|c raw]|]; simpl Table.truthy_str; cbv iota.
  - (* an empty text *)
    split; [split; [discriminate|]|].
    + intros (raw & Hraw & Hne & _). injection Hraw as <-. now elim Hne.
    + repeat split; try reflexivity;
        intros raw Hraw Hne; injection Hraw as <-; now elim Hne.
  - (* a text *)
    fold (starts_with_http (strip (String c raw))).
    destruct (starts_with_http (strip (String c raw))) eqn:Hhttp.
    + assert (Ht : Table.truthy_str (strip (String c raw)) = true).
      { destruct (strip (String c raw)); [|reflexivity].
        rewrite Hempty in Hhttp. discriminate. }
      rewrite Ht. simpl andb. cbv iota.
      split; [split|].
      * intros _. exists (String c raw). repeat split; [discriminate | exact Hhttp].
      * intros _. reflexivity.
      * split; [|split].
        -- intros raw' Hraw _ _. injection Hraw as <-. reflexivity.
        -- intros raw' Hraw _ Hno. injection Hraw as <-.
           rewrite Hhttp in Hno. discriminate.
        -- intros [H|H]; discriminate H.
    + rewrite andb_false_r.
      split; [split|].
      * discriminate.
      * intros (raw' & Hraw & _ & Hyes). injection Hraw as <-.
        rewrite Hhttp in Hyes. discriminate.
      * split; [|split].
        -- intros raw' Hraw _ Hyes. injection Hraw as <-.
           rewrite Hhttp in Hyes. discriminate.
        -- intros raw' Hraw _ _. reflexivity.
        -- intros [H|H]; discriminate H.
  - (* a missing cell *)
    split; [split; [discriminate|]|].
    + intros (raw & Hraw & _). discriminate.
    + repeat split; try reflexivity; intros raw Hraw; discriminate.
Qed.

(** X22.  The columns of the table are those of the fixed display
    order (price, bedrooms, bathrooms, area, distance, address, date,
    type, link) that the frame has, in that order: a column the frame
    lacks is left out, and no other column of the frame, such as a
    coordinate, is ever shown. *)
Theorem X22_table_columns_follow_the_display_order
        (frame_columns : list string) :
  Table.table_columns frame_columns
  = filter (fun col => existsb (String.eqb col) frame_columns) display_order
  /\ forall col,
       In col (Table.table_columns frame_columns) ->
       In col frame_columns /\ In col display_order.
Proof.
  assert (Heq : Table.table_columns frame_columns
                = filter (fun col => existsb (String.eqb col) frame_columns)
                         display_order).
  { unfold Table.table_columns, display_order, Table.insert_at.
    destruct (existsb (String.eqb "area") frame_columns) eqn:A;
      destruct (existsb (String.eqb "displayAddress") frame_columns) eqn:D;
      destruct (existsb (String.eqb "addedOn") frame_columns) eqn:O;
      destruct (existsb (String.eqb "propertyType") frame_columns) eqn:P;
      destruct (existsb (String.eqb "url") frame_columns) eqn:U;
      cbn [firstn skipn app filter];
      rewrite ?A, ?D, ?O, ?P, ?U; reflexivity. }
  split; [exact Heq|].
  intros col Hin. rewrite Heq in Hin. apply filter_In in Hin as [Hord Hex].
  split; [|exact Hord].
  apply existsb_exists in Hex as (c & Hc & Hcc).
  apply String.eqb_eq in Hcc. now subst.
Qed.

Lemma X21_links_only_for_http_addresses_witness :
  Table.render_url strip (Some "  https://example.org/1 "%string)
  = "[🏠 View Listing](https://example.org/1)"%string
  /\ Table.render_url strip (Some "javascript:alert(1)"%string)
     = "❌ Invalid"%string.
Proof.
  split.
  - apply (proj1 (proj2 (X21_links_only_for_http_addresses
                           strip (Some "  https://example.org/1 "%string)))
                 "  https://example.org/1 "%string eq_refl);
      [discriminate | reflexivity].
  - apply (proj1 (proj2 (proj2 (X21_links_only_for_http_addresses
                                  strip (Some "javascript:alert(1)"%string))))
                 "javascript:alert(1)"%string eq_refl);
      [discriminate | reflexivity].
Defined.

(** ** [calculate_distances] and the view *)

(** X23.  For a dataset with at least one row and both coordinates
    given, the store made by [calculate_distances] holds one distance
    for each row, the distance of that row from the given point, in
    the order of the dataset; the column assignment of
    [update_dashboard] accepts the store and decorates each row with
    its own distance. *)
Theorem X23_calculated_distances_fit_the_dataset
        (haversine : Q -> Q -> Q -> Q -> Q) df (n_clicks : option Z) (la lo : Q) :
  df <> [] ->
  let distance_data :=
    Distances.calculate_distances haversine df n_clicks (Some la) (Some lo) in
  distances_fit df distance_data = true
  /\ add_distance_column df distance_data = Ok (decorate df distance_data)
  /\ map listing (decorate df distance_data) = df
  /\ map distance_km (decorate df distance_data)
     = map (fun row => haversine la lo (Col.latitude row) (Col.longitude row)) df.
Proof.
  intros _ distance_data.
  assert (Hfit : distances_fit df distance_data = true).
  { unfold distance_data, distances_fit. simpl.
    rewrite length_map. apply Nat.eqb_refl. }
  split; [exact Hfit|].
  split; [apply add_distance_column_decorate; exact Hfit|].
  split; [apply decorate_listing; exact Hfit|].
  exact (decorate_distance df _ Hfit).
Qed.

Lemma X23_calculated_distances_fit_the_dataset_witness :
  Samples.two_flats <> []
  /\ map distance_km
         (decorate Samples.two_flats
            (Distances.calculate_distances taxicab Samples.two_flats None
               (Some (515074 # 10000)%Q) (Some (- (1278 # 10000))%Q)))
     = map (fun row => taxicab (515074 # 10000)%Q (- (1278 # 10000))%Q
                               (Col.latitude row) (Col.longitude row))
           Samples.two_flats.
Proof.
  split; [discriminate|].
  apply (X23_calculated_distances_fit_the_dataset
           taxicab Samples.two_flats None (515074 # 10000)%Q (- (1278 # 10000))%Q).
  discriminate.
Defined.

(** X24.  When a coordinate field is empty, [calculate_distances]
    stores nothing: the max distance then has no effect, every value
    of it giving the outcome of an unset max distance, and every view
    the callback returns reports "N/A" for the average distance. *)
Theorem X24_empty_coordinate_clears_the_distance_query
        (haversine : Q -> Q -> Q -> Q -> Q) ops df (n_clicks : option Z)
        (lat lon : option Q)
        bedrooms bathrooms price_range max_distance table_toggle current_page :
  lat = None \/ lon = None ->
  let distance_data :=
    Distances.calculate_distances haversine df n_clicks lat lon in
  distance_data = None
  /\ update_dashboard ops df bedrooms bathrooms price_range distance_data
                      max_distance table_toggle current_page
     = update_dashboard ops df bedrooms bathrooms price_range distance_data
                        None table_toggle current_page
  /\ forall v,
       update_dashboard ops df bedrooms bathrooms price_range distance_data
                        max_distance table_toggle current_page = Ok v ->
       View.avg_dist v = "N/A"%string.
Proof.
  intros Hnone distance_data.
  assert (Hdd : distance_data = None).
  { unfold distance_data, Distances.calculate_distances.
    destruct Hnone as [-> | ->]; [reflexivity|]. destruct lat; reflexivity. }
  rewrite Hdd. split; [reflexivity|]. split; [reflexivity|].
  intros v E.
  destruct (update_dashboard_returns _ _ _ _ _ _ _ _ _ _ E)
    as (_ & _ & _ & _ & _ & Hdi & _).
  rewrite Hdi. unfold stat_avg_dist. simpl truthy_opt.
  now rewrite andb_false_r.
Qed.

Lemma X24_empty_coordinate_clears_the_distance_query_witness :
  Distances.calculate_distances taxicab Samples.two_flats (Some 1)
                                None (Some (- (1278 # 10000))%Q) = None
  /\ exists v,
       update_dashboard exact_ops Samples.two_flats sel_all sel_all
         (0%Q, 10000%Q)
         (Distances.calculate_distances taxicab Samples.two_flats (Some 1)
                                        None (Some (- (1278 # 10000))%Q))
         (Some 1%Q) show_filtered 1 = Ok v
       /\ View.avg_dist v = "N/A"%string.
Proof.
  destruct (X24_empty_coordinate_clears_the_distance_query
              taxicab exact_ops Samples.two_flats (Some 1) None
              (Some (- (1278 # 10000))%Q)
              sel_all sel_all (0%Q, 10000%Q) (Some 1%Q) show_filtered 1
              (or_introl eq_refl))
    as (Hdd & _ & Hv).
  split; [exact Hdd|].
  destruct (update_dashboard exact_ops Samples.two_flats sel_all sel_all
              (0%Q, 10000%Q)
              (Distances.calculate_distances taxicab Samples.two_flats (Some 1)
                                             None (Some (- (1278 # 10000))%Q))
              (Some 1%Q) show_filtered 1)
    as [v|e] eqn:E; [|vm_compute in E; discriminate E].
  exists v. split; [reflexivity|]. apply Hv. reflexivity.
Defined.
